(** * discord-webhook-helper: a shallow embedding of [src/index.ts]

    The development follows the layout of the source file: the wire data
    model (interfaces [DiscordEmbedField], [DiscordEmbed],
    [DiscordWebhookPayload], [DiscordWebhookOptions]), the host capabilities
    the code relies on (clock, [fetch], [JSON.stringify]), the class
    [DiscordWebhook], the class [EmbedBuilder] and the two free helper
    functions.  The properties of the specification follow the definitions.

    Conventions.
    - A JavaScript string is a [string]; the only string tests the code makes
      are emptiness and [startsWith] with an ASCII literal, which read the
      same on UTF-16 code units and on bytes.
    - A JavaScript number that the code handles (colour, HTTP status,
      timeout in milliseconds) is an integer, modelled as [Z].
    - An optional property ([title?: string]) is an [option]: [None] stands
      for a key that is missing or holds [undefined]; [JSON.stringify]
      treats the two alike.
    - [async]/[await] is read sequentially: every method awaits the single
      promise it creates before it does anything else.  A promise of the
      host that never settles leaves the method [Pending]. *)

From Stdlib Require Import String Ascii List ZArith Bool Lia.
From Stdlib Require Import DecimalString.
Import ListNotations.

Local Open Scope string_scope.
Local Open Scope Z_scope.

(* ===================================================================== *)
(** ** JavaScript values the code relies on *)
(* ===================================================================== *)

(** What a [throw] can carry.  [ErrorObject name message] is any value for
    which [error instanceof Error] holds; [new Error(m)] has name ["Error"]. *)
Inductive Thrown : Type :=
| ErrorObject (name message : string)
| NonError (display : string).

Definition Error (message : string) : Thrown := ErrorObject "Error" message.

(** Outcome of evaluating an expression or of awaiting a promise: a value,
    a thrown value, or, for a promise of the host that never settles,
    nothing at all. *)
Inductive Completion (A : Type) : Type :=
| Return (a : A)
| Throw (e : Thrown)
| Pending.
Arguments Return {A} a.
Arguments Throw {A} e.
Arguments Pending {A}.

(** Truthiness of a string: every string but the empty one. *)
Definition truthy (s : string) : bool :=
  match s with
  | EmptyString => false
  | String _ _ => true
  end.

(** [String.prototype.startsWith]. *)
Definition startsWith (s searchString : string) : bool := String.prefix searchString s.

(** [String.prototype.includes], as a proposition. *)
Definition includes (s searchString : string) : Prop :=
  exists before after, s = before ++ searchString ++ after.

(** Decimal rendering of an integer inside a template literal. *)
Definition Number_toString (n : Z) : string := NilZero.string_of_int (Z.to_int n).

(** [a || b] on an optional number: [undefined] and [0] are falsy. *)
Definition or_default (a : option Z) (b : Z) : Z :=
  match a with
  | Some n => if n =? 0 then b else n
  | None => b
  end.

(* ===================================================================== *)
(** ** Data model (the exported interfaces) *)
(* ===================================================================== *)

Record DiscordEmbedField : Type := mkField {
  name : string;
  value : string;
  inline : option bool
}.

Record Footer : Type := mkFooter {
  text : string;
  icon_url : option string
}.

Record Media : Type := mkMedia { media_url : string }.

(** [mkEmbed title description url timestamp color footer image thumbnail fields] *)
Record DiscordEmbed : Type := mkEmbed {
  title : option string;
  description : option string;
  url : option string;
  timestamp : option string;
  color : option Z;
  footer : option Footer;
  image : option Media;
  thumbnail : option Media;
  fields : option (list DiscordEmbedField)
}.

(** The object literal [{}]. *)
Definition empty_embed : DiscordEmbed :=
  mkEmbed None None None None None None None None None.

(** [mkPayload content username avatar_url embeds] *)
Record DiscordWebhookPayload : Type := mkPayload {
  content : option string;
  username : option string;
  avatar_url : option string;
  embeds : option (list DiscordEmbed)
}.

Inductive DiscordStatusColor : Type := success | warning | error | info.

Record DiscordWebhookOptions : Type := mkOptions {
  opt_webhookUrl : string;
  opt_username : option string;
  opt_avatarUrl : option string;
  opt_timeout : option Z
}.

(** Functional updates of one property of an embed ([embed.p = v]). *)
Definition set_title (v : string) (e : DiscordEmbed) : DiscordEmbed :=
  mkEmbed (Some v) (description e) (url e) (timestamp e) (color e)
          (footer e) (image e) (thumbnail e) (fields e).
Definition set_description (v : string) (e : DiscordEmbed) : DiscordEmbed :=
  mkEmbed (title e) (Some v) (url e) (timestamp e) (color e)
          (footer e) (image e) (thumbnail e) (fields e).
Definition set_url (v : string) (e : DiscordEmbed) : DiscordEmbed :=
  mkEmbed (title e) (description e) (Some v) (timestamp e) (color e)
          (footer e) (image e) (thumbnail e) (fields e).
Definition set_timestamp (v : string) (e : DiscordEmbed) : DiscordEmbed :=
  mkEmbed (title e) (description e) (url e) (Some v) (color e)
          (footer e) (image e) (thumbnail e) (fields e).
Definition set_color (v : Z) (e : DiscordEmbed) : DiscordEmbed :=
  mkEmbed (title e) (description e) (url e) (timestamp e) (Some v)
          (footer e) (image e) (thumbnail e) (fields e).
Definition set_footer (v : Footer) (e : DiscordEmbed) : DiscordEmbed :=
  mkEmbed (title e) (description e) (url e) (timestamp e) (color e)
          (Some v) (image e) (thumbnail e) (fields e).
Definition set_image (v : Media) (e : DiscordEmbed) : DiscordEmbed :=
  mkEmbed (title e) (description e) (url e) (timestamp e) (color e)
          (footer e) (Some v) (thumbnail e) (fields e).
Definition set_thumbnail (v : Media) (e : DiscordEmbed) : DiscordEmbed :=
  mkEmbed (title e) (description e) (url e) (timestamp e) (color e)
          (footer e) (image e) (Some v) (fields e).
Definition set_fields (v : list DiscordEmbedField) (e : DiscordEmbed) : DiscordEmbed :=
  mkEmbed (title e) (description e) (url e) (timestamp e) (color e)
          (footer e) (image e) (thumbnail e) (Some v).

(* ===================================================================== *)
(** ** [JSON.stringify]

    The request body is the JSON text of the payload.  It is modelled by the
    JSON value that text denotes.  A property whose value is [undefined] is
    left out of the enclosing object; members are listed in the order of the
    interface declaration (the order of members carries no meaning for the
    receiver, lookups go through [json_get]). *)
(* ===================================================================== *)

#[warnings="-register-all"]
Inductive JSON : Type :=
| JNull
| JBool (b : bool)
| JNumber (n : Z)
| JString (s : string)
| JArray (items : list JSON)
| JObject (members : list (string * JSON)).

(** One property of an object under serialisation. *)
Definition member {A : Type} (key : string) (enc : A -> JSON) (v : option A)
  : list (string * JSON) :=
  match v with
  | Some a => [(key, enc a)]
  | None => []
  end.

Fixpoint lookup_member (key : string) (ms : list (string * JSON)) : option JSON :=
  match ms with
  | [] => None
  | (k, v) :: rest => if String.eqb k key then Some v else lookup_member key rest
  end.

(** [obj[key]] on a parsed body; [None] when the key is absent. *)
Definition json_get (key : string) (j : JSON) : option JSON :=
  match j with
  | JObject ms => lookup_member key ms
  | _ => None
  end.

Definition stringify_field (f : DiscordEmbedField) : JSON :=
  JObject ([("name", JString (name f)); ("value", JString (value f))]
           ++ member "inline" JBool (inline f)).

Definition stringify_footer (f : Footer) : JSON :=
  JObject ([("text", JString (text f))] ++ member "icon_url" JString (icon_url f)).

Definition stringify_media (m : Media) : JSON :=
  JObject [("url", JString (media_url m))].

Definition stringify_embed (e : DiscordEmbed) : JSON :=
  JObject (member "title" JString (title e)
           ++ member "description" JString (description e)
           ++ member "url" JString (url e)
           ++ member "timestamp" JString (timestamp e)
           ++ member "color" JNumber (color e)
           ++ member "footer" stringify_footer (footer e)
           ++ member "image" stringify_media (image e)
           ++ member "thumbnail" stringify_media (thumbnail e)
           ++ member "fields" (fun fs => JArray (map stringify_field fs)) (fields e)).

Definition JSON_stringify (p : DiscordWebhookPayload) : JSON :=
  JObject (member "content" JString (content p)
           ++ member "username" JString (username p)
           ++ member "avatar_url" JString (avatar_url p)
           ++ member "embeds" (fun es => JArray (map stringify_embed es)) (embeds p)).

(* ===================================================================== *)
(** ** The host: clock and transport

    [fetch] belongs to the host ([node-fetch]).  What the code sees of one
    call is its outcome: a response arrived in time, the timer armed with
    [setTimeout] fired first and [controller.abort()] made the promise
    reject with an [AbortError], or the promise rejected with some other
    value.  The host decides the outcome from the request and the delay of
    the timer. *)
(* ===================================================================== *)

Record Response : Type := mkResponse {
  status : Z;
  statusText : string;
  (** what awaiting [response.text()] gives; the timer is cleared before
      the body is read, so the read has no deadline and may stay [Pending] *)
  response_text : Completion string
}.

(** [response.ok]: the status is in the range 200-299. *)
Definition ok (r : Response) : bool := (200 <=? status r) && (status r <? 300).

Record Request : Type := mkRequest {
  req_url : string;
  req_method : string;
  req_headers : list (string * string);
  req_body : JSON
}.

Inductive FetchOutcome : Type :=
| Responded (r : Response)
| Aborted
| Rejected (e : Thrown).

(** The value [fetch] rejects with once its signal is aborted. *)
Definition AbortError : Thrown := ErrorObject "AbortError" "The user aborted a request.".

Record Host : Type := mkHost {
  (** [new Date().toISOString()] *)
  now_iso : string;
  (** outcome of [fetch(request)] raced against a timer of the given delay *)
  transport : Request -> Z -> FetchOutcome
}.

(* ===================================================================== *)
(** ** Effects: a state-and-exception monad over the request log

    The state is the list of requests handed to [fetch] so far, oldest
    first; one entry is one network attempt. *)
(* ===================================================================== *)

Definition Log : Type := list Request.

Definition Action (A : Type) : Type := Host -> Log -> Completion A * Log.

Definition ret {A : Type} (a : A) : Action A := fun _ log => (Return a, log).

Definition throw {A : Type} (e : Thrown) : Action A := fun _ log => (Throw e, log).

Definition bind {A B : Type} (m : Action A) (k : A -> Action B) : Action B :=
  fun h log =>
    match m h log with
    | (Return a, log') => k a h log'
    | (Throw e, log') => (Throw e, log')
    | (Pending, log') => (Pending, log')
    end.

(** [try { m } catch (error) { handler error }] *)
Definition try_catch {A : Type} (m : Action A) (handler : Thrown -> Action A) : Action A :=
  fun h log =>
    match m h log with
    | (Return a, log') => (Return a, log')
    | (Throw e, log') => handler e h log'
    | (Pending, log') => (Pending, log')
    end.

(** Awaiting a promise whose outcome is already fixed; a function that
    awaits a promise that never settles never continues. *)
Definition await {A : Type} (c : Completion A) : Action A := fun _ log => (c, log).

Definition current_time : Action string := fun h log => (Return (now_iso h), log).

(** [await fetch(url, init)] with the abort timer armed for [delay] ms:
    the request is recorded, then the promise settles. *)
Definition fetch (r : Request) (delay : Z) : Action Response :=
  fun h log =>
    match transport h r delay with
    | Responded resp => (Return resp, (log ++ [r])%list)
    | Aborted => (Throw AbortError, (log ++ [r])%list)
    | Rejected e => (Throw e, (log ++ [r])%list)
    end.

Declare Scope action_scope.
Delimit Scope action_scope with action.
Notation "x <- m ;; k" := (bind m (fun x => k))
  (at level 61, m at next level, right associativity) : action_scope.
Notation "m ;;; k" := (bind m (fun _ => k))
  (at level 61, right associativity) : action_scope.
Local Open Scope action_scope.

(* ===================================================================== *)
(** ** class DiscordWebhook *)
(* ===================================================================== *)

Module DiscordWebhook.

(** The private properties of an instance. *)
Record t : Type := mk {
  webhookUrl : string;
  username : option string;
  avatarUrl : option string;
  timeout : Z
}.

Definition STATUS_COLORS (s : DiscordStatusColor) : Z :=
  match s with
  | success => 0x57F287
  | warning => 0xFEE75C
  | error => 0xED4245
  | info => 0x5865F2
  end.

Definition WEBHOOK_PREFIX : string := "https://discord.com/api/webhooks/".

Definition constructor (options : DiscordWebhookOptions) : Completion t :=
  if negb (truthy (opt_webhookUrl options))
     || negb (startsWith (opt_webhookUrl options) WEBHOOK_PREFIX)
  then Throw (Error "Invalid webhook URL. Must be a Discord webhook URL.")
  else Return {| webhookUrl := opt_webhookUrl options;
                 username := opt_username options;
                 avatarUrl := opt_avatarUrl options;
                 timeout := or_default (opt_timeout options) 10000 |}.

(** The request [_execute] hands to [fetch]. *)
Definition request_of (this : t) (payload : DiscordWebhookPayload) : Request :=
  {| req_url := webhookUrl this;
     req_method := "POST";
     req_headers := [("Content-Type", "application/json")];
     req_body := JSON_stringify payload |}.

Definition _execute (this : t) (payload : DiscordWebhookPayload) : Action unit :=
  try_catch
    (response <- fetch (request_of this payload) (timeout this) ;;
     if negb (ok response) then
       errorText <- await (response_text response) ;;
       throw (Error ("Discord API error: " ++ Number_toString (status response)
                     ++ " " ++ statusText response ++ " - " ++ errorText))
     else ret tt)
    (fun error =>
       match error with
       | ErrorObject name message =>
           if String.eqb name "AbortError" then
             throw (Error ("Failed to send webhook: Request timeout after "
                           ++ Number_toString (timeout this) ++ "ms"))
           else
             throw (Error ("Failed to send webhook: " ++ message))
       | NonError _ =>
           throw (Error "Failed to send webhook: Unknown error")
       end).

Definition send (this : t) (content : string) (embeds : option (list DiscordEmbed))
  : Action unit :=
  _execute this (mkPayload (Some content) (username this) (avatarUrl this) embeds).

(** The embed [sendStatus] assembles, given the clock reading. *)
Definition status_embed (status : DiscordStatusColor) (title : string)
           (description : option string) (fields : option (list DiscordEmbedField))
           (imageUrl : option string) (now : string) : DiscordEmbed :=
  (* { title, color: STATUS_COLORS[status], timestamp: now } *)
  let embed := mkEmbed (Some title) None None (Some now)
                       (Some (STATUS_COLORS status)) None None None None in
  let embed := match description with
               | Some d => if truthy d then set_description d embed else embed
               | None => embed
               end in
  let embed := match fields with
               | Some fs => if 0 <? Z.of_nat (length fs) then set_fields fs embed else embed
               | None => embed
               end in
  let embed := match imageUrl with
               | Some u => if truthy u then set_image {| media_url := u |} embed else embed
               | None => embed
               end in
  embed.

Definition sendStatus (this : t) (status : DiscordStatusColor) (title : string)
           (description : option string) (fields : option (list DiscordEmbedField))
           (imageUrl : option string) : Action unit :=
  now <- current_time ;;
  let embed := status_embed status title description fields imageUrl now in
  _execute this (mkPayload None (username this) (avatarUrl this) (Some [embed])).

Definition sendEmbeds (this : t) (embeds : list DiscordEmbed) : Action unit :=
  if Z.of_nat (length embeds) =? 0 then
    throw (Error "At least one embed is required")
  else if 10 <? Z.of_nat (length embeds) then
    throw (Error "Maximum 10 embeds allowed per message")
  else
    _execute this (mkPayload None (username this) (avatarUrl this) (Some embeds)).

End DiscordWebhook.

(* ===================================================================== *)
(** ** class EmbedBuilder

    A builder owns one embed object and every mutator returns [this]; a
    mutator is modelled as a function from the builder before the call to
    the builder after it, so a chain [b.f(x).g(y)] reads [g y (f x b)]. *)
(* ===================================================================== *)

Module EmbedBuilder.

Record t : Type := mk { embed : DiscordEmbed }.

(** [new EmbedBuilder()] *)
Definition new : t := {| embed := empty_embed |}.

Definition setTitle (title : string) (this : t) : t :=
  {| embed := set_title title (embed this) |}.

Definition setDescription (description : string) (this : t) : t :=
  {| embed := set_description description (embed this) |}.

Definition setColor (color : Z) (this : t) : t :=
  {| embed := set_color color (embed this) |}.

Definition setStatusColor (status : DiscordStatusColor) (this : t) : t :=
  {| embed := set_color (DiscordWebhook.STATUS_COLORS status) (embed this) |}.

Definition setUrl (url : string) (this : t) : t :=
  {| embed := set_url url (embed this) |}.

Definition setTimestamp (h : Host) (this : t) : t :=
  {| embed := set_timestamp (now_iso h) (embed this) |}.

Definition setFooter (text : string) (iconUrl : option string) (this : t) : t :=
  {| embed := set_footer (mkFooter text iconUrl) (embed this) |}.

Definition setImage (url : string) (this : t) : t :=
  {| embed := set_image (mkMedia url) (embed this) |}.

Definition setThumbnail (url : string) (this : t) : t :=
  {| embed := set_thumbnail (mkMedia url) (embed this) |}.

(** The list that [this.embed.fields] holds once
    [if (!this.embed.fields) this.embed.fields = []] has run: an array is
    truthy, so only a missing list is replaced by a new empty one. *)
Definition fields_or_init (e : DiscordEmbed) : list DiscordEmbedField :=
  match fields e with
  | Some fs => fs
  | None => []
  end.

(** [addField(name, value, inline = false)]: the default applies when the
    third argument is missing or [undefined]; [push] appends at the end. *)
Definition addField (name value : string) (inline : option bool) (this : t) : t :=
  let inline := match inline with Some b => b | None => false end in
  {| embed := set_fields (fields_or_init (embed this) ++ [mkField name value (Some inline)])
                         (embed this) |}.

(** [push(...fields)] appends the given objects themselves, in order. *)
Definition addFields (fields : list DiscordEmbedField) (this : t) : t :=
  {| embed := set_fields (fields_or_init (embed this) ++ fields) (embed this) |}.

Definition build (this : t) : DiscordEmbed := embed this.

End EmbedBuilder.

(** Calling [addField] once per element of a sequence, in order, each call
    passing the element's name, value and inline flag: the reading of
    "repeated [addField]" that [addFields] is compared with. *)
Definition addField_each (fields : list DiscordEmbedField) (b : EmbedBuilder.t)
  : EmbedBuilder.t :=
  fold_left (fun acc f => EmbedBuilder.addField (name f) (value f) (inline f) acc) fields b.

(** The field that [addField] stores when it is given the parts of [f]:
    the inline flag is made explicit. *)
Definition with_inline_default (f : DiscordEmbedField) : DiscordEmbedField :=
  mkField (name f) (value f)
          (Some (match inline f with Some x => x | None => false end)).

(** [createEmbed()] of a client *)
Definition createEmbed (this : DiscordWebhook.t) : EmbedBuilder.t := EmbedBuilder.new.

(* ===================================================================== *)
(** ** Free helper functions *)
(* ===================================================================== *)

(** The options object of [sendWebhook].  Its declared properties are
    [username], [avatarUrl] and [embeds]; the function spreads the whole
    object into the options of the constructor, so a [webhookUrl] or a
    [timeout] that the object carries beyond its declared type reaches the
    constructor as well.  They are taken to have the types that
    [DiscordWebhookOptions] gives them. *)
Record SendWebhookOptions : Type := mkSendWebhookOptions {
  swo_username : option string;
  swo_avatarUrl : option string;
  swo_embeds : option (list DiscordEmbed);
  swo_webhookUrl : option string;
  swo_timeout : option Z
}.

Record SendStatusOptions : Type := mkSendStatusOptions {
  sso_username : option string;
  sso_avatarUrl : option string;
  sso_fields : option (list DiscordEmbedField);
  sso_imageUrl : option string
}.

(** [options?.p], and the value of [p] that a spread of [options] copies *)
Definition opt_chain {O A : Type} (p : O -> option A) (options : option O) : option A :=
  match options with
  | Some o => p o
  | None => None
  end.

(** [{ webhookUrl, ...options }]: the properties of [options] come after
    [webhookUrl] and override it when [options] has one of that name; a
    missing [options] spreads to nothing. *)
Definition spread_options (webhookUrl : string) (options : option SendWebhookOptions)
  : DiscordWebhookOptions :=
  mkOptions (match opt_chain swo_webhookUrl options with
             | Some u => u
             | None => webhookUrl
             end)
            (opt_chain swo_username options)
            (opt_chain swo_avatarUrl options)
            (opt_chain swo_timeout options).

Definition sendWebhook (webhookUrl content : string) (options : option SendWebhookOptions)
  : Action unit :=
  webhook <- await (DiscordWebhook.constructor (spread_options webhookUrl options)) ;;
  DiscordWebhook.send webhook content (opt_chain swo_embeds options).

Definition sendStatus (webhookUrl : string) (status : DiscordStatusColor) (title : string)
           (description : option string) (options : option SendStatusOptions)
  : Action unit :=
  webhook <- await (DiscordWebhook.constructor
                      (mkOptions webhookUrl (opt_chain sso_username options)
                                 (opt_chain sso_avatarUrl options) None)) ;;
  DiscordWebhook.sendStatus webhook status title description
                            (opt_chain sso_fields options) (opt_chain sso_imageUrl options).

(* ===================================================================== *)
(** ** Error kinds

    The code throws plain [Error] objects; the kinds of the specification
    are told apart by the statement that throws and by the message. *)
(* ===================================================================== *)

(** thrown by the constructor *)
Definition ConfigurationError (e : Thrown) : Prop :=
  e = Error "Invalid webhook URL. Must be a Discord webhook URL.".

(** thrown by [sendEmbeds] before it dispatches *)
Definition ValidationError (e : Thrown) : Prop :=
  e = Error "At least one embed is required"
  \/ e = Error "Maximum 10 embeds allowed per message".

(** thrown by [_execute] for a response that is not [ok] *)
Definition RemoteError (status : Z) (statusText body : string) (e : Thrown) : Prop :=
  e = Error ("Failed to send webhook: Discord API error: " ++ Number_toString status
             ++ " " ++ statusText ++ " - " ++ body).

(** thrown by [_execute] when the request was aborted by the timer *)
Definition TimeoutError (timeout : Z) (e : Thrown) : Prop :=
  e = Error ("Failed to send webhook: Request timeout after "
             ++ Number_toString timeout ++ "ms").

(** thrown by [_execute] for any other [Error] the attempt raised *)
Definition TransportError (cause : string) (e : Thrown) : Prop :=
  e = Error ("Failed to send webhook: " ++ cause).

(** [s] begins with [p]. *)
Definition begins_with (s p : string) : Prop := exists rest, s = p ++ rest.

(* ===================================================================== *)
(** ** Scenarios used in the examples *)
(* ===================================================================== *)

(** A client with the default timeout and one configured with 50 ms. *)
Definition client_default : DiscordWebhook.t :=
  DiscordWebhook.mk "https://discord.com/api/webhooks/123/abc" None None 10000.

Definition client_50ms : DiscordWebhook.t :=
  DiscordWebhook.mk "https://discord.com/api/webhooks/123/abc" None None 50.

Definition clock_reading : string := "2024-05-17T09:30:00.000Z".

(** The endpoint accepts every request with 204. *)
Definition host_accepting : Host :=
  mkHost clock_reading (fun _ _ => Responded (mkResponse 204 "No Content" (Return ""))).

(** The endpoint answers 404 "Not Found" with body "Unknown Webhook". *)
Definition host_unknown_webhook : Host :=
  mkHost clock_reading
         (fun _ _ => Responded (mkResponse 404 "Not Found" (Return "Unknown Webhook"))).

(** The endpoint needs 500 ms to answer: a timer of a shorter delay wins. *)
Definition host_slow : Host :=
  mkHost clock_reading
         (fun _ delay => if delay <? 500 then Aborted
                         else Responded (mkResponse 204 "No Content" (Return ""))).

(** The endpoint cannot be reached: [fetch] rejects with a [FetchError]. *)
Definition host_unreachable : Host :=
  mkHost clock_reading
         (fun _ _ => Rejected (ErrorObject "FetchError" "getaddrinfo ENOTFOUND discord.com")).

(** [fetch] rejects with a value that is not an [Error]. *)
Definition host_rejecting_value : Host :=
  mkHost clock_reading (fun _ _ => Rejected (NonError "socket closed")).

(** [fetch] rejects with an error named [AbortError] that no timer caused. *)
Definition host_foreign_abort : Host :=
  mkHost clock_reading (fun _ _ => Rejected (ErrorObject "AbortError" "stream destroyed")).

(** The endpoint always lets the timer win. *)
Definition host_silent : Host := mkHost clock_reading (fun _ _ => Aborted).

(** The endpoint answers 500 and the body cannot be read. *)
Definition host_broken_body : Host :=
  mkHost clock_reading
         (fun _ _ => Responded (mkResponse 500 "Internal Server Error"
                                           (Throw (ErrorObject "FetchError" "Premature close")))).

(** The endpoint answers 503 and the body never arrives. *)
Definition host_stalled_body : Host :=
  mkHost clock_reading
         (fun _ _ => Responded (mkResponse 503 "Service Unavailable" Pending)).

(** [String.prototype.includes], computed. *)
Fixpoint includesb (s searchString : string) : bool :=
  String.prefix searchString s
  || match s with
     | EmptyString => false
     | String _ rest => includesb rest searchString
     end.

(* ===================================================================== *)
(** ** The catch block of [_execute] and chains of builder calls *)
(* ===================================================================== *)

(** What the [catch] block of [_execute] throws for a caught value. *)
Definition reported (this : DiscordWebhook.t) (caught : Thrown) : Thrown :=
  match caught with
  | ErrorObject name message =>
      if String.eqb name "AbortError" then
        Error ("Failed to send webhook: Request timeout after "
               ++ Number_toString (DiscordWebhook.timeout this) ++ "ms")
      else
        Error ("Failed to send webhook: " ++ message)
  | NonError _ => Error "Failed to send webhook: Unknown error"
  end.

(** The payload carries the identity of the client: user name and avatar
    as configured, and in the body a key for each exactly when configured. *)
Definition carries_identity (this : DiscordWebhook.t) (p : DiscordWebhookPayload) : Prop :=
  username p = DiscordWebhook.username this
  /\ avatar_url p = DiscordWebhook.avatarUrl this
  /\ json_get "username" (JSON_stringify p)
     = option_map JString (DiscordWebhook.username this)
  /\ json_get "avatar_url" (JSON_stringify p)
     = option_map JString (DiscordWebhook.avatarUrl this).

(** One call of the fluent interface of [EmbedBuilder]. *)
Inductive Call : Type :=
| SetTitle (title : string)
| SetDescription (description : string)
| SetColor (color : Z)
| SetStatusColor (status : DiscordStatusColor)
| SetUrl (url : string)
| SetTimestamp
| SetFooter (text : string) (iconUrl : option string)
| SetImage (url : string)
| SetThumbnail (url : string)
| AddField (name value : string) (inline : option bool)
| AddFields (fields : list DiscordEmbedField).

(** [b.m(args)] for the method and arguments that [c] names. *)
Definition call (h : Host) (c : Call) (b : EmbedBuilder.t) : EmbedBuilder.t :=
  match c with
  | SetTitle t => EmbedBuilder.setTitle t b
  | SetDescription d => EmbedBuilder.setDescription d b
  | SetColor n => EmbedBuilder.setColor n b
  | SetStatusColor s => EmbedBuilder.setStatusColor s b
  | SetUrl u => EmbedBuilder.setUrl u b
  | SetTimestamp => EmbedBuilder.setTimestamp h b
  | SetFooter t i => EmbedBuilder.setFooter t i b
  | SetImage u => EmbedBuilder.setImage u b
  | SetThumbnail u => EmbedBuilder.setThumbnail u b
  | AddField n v i => EmbedBuilder.addField n v i b
  | AddFields fs => EmbedBuilder.addFields fs b
  end.

(** A chain [b.m1(..).m2(..)...], first call first. *)
Definition chain (h : Host) (cs : list Call) (b : EmbedBuilder.t) : EmbedBuilder.t :=
  fold_left (fun acc c => call h c acc) cs b.

(** The property of the embed that a call assigns to. *)
Inductive Property : Type :=
| PTitle | PDescription | PUrl | PTimestamp | PColor
| PFooter | PImage | PThumbnail | PFields.

Definition written (c : Call) : Property :=
  match c with
  | SetTitle _ => PTitle
  | SetDescription _ => PDescription
  | SetColor _ => PColor
  | SetStatusColor _ => PColor
  | SetUrl _ => PUrl
  | SetTimestamp => PTimestamp
  | SetFooter _ _ => PFooter
  | SetImage _ => PImage
  | SetThumbnail _ => PThumbnail
  | AddField _ _ _ => PFields
  | AddFields _ => PFields
  end.

(** The fields a call pushes onto the field list. *)
Definition pushed (c : Call) : list DiscordEmbedField :=
  match c with
  | AddField n v i => [mkField n v (Some (match i with Some x => x | None => false end))]
  | AddFields fs => fs
  | _ => []
  end.

(** The builder calls that assemble the embed of [sendStatus]. *)
Definition status_calls (st : DiscordStatusColor) (ttl : string) (desc : option string)
           (flds : option (list DiscordEmbedField)) (img : option string) : list Call :=
  ([SetTitle ttl; SetStatusColor st; SetTimestamp]
   ++ match desc with
      | Some d => if truthy d then [SetDescription d] else []
      | None => []
      end
   ++ match flds with
      | Some (f :: fs) => [AddFields (f :: fs)]
      | _ => []
      end
   ++ match img with
      | Some u => if truthy u then [SetImage u] else []
      | None => []
      end)%list.

(* ===================================================================== *)
(** * Properties *)
(* ===================================================================== *)

(** ** Strings *)

Lemma append_assoc (a b c : string) : (a ++ b) ++ c = a ++ b ++ c.
Proof.
  induction a as [|ch a IH]; simpl; [reflexivity | now rewrite IH].
Qed.

Lemma append_empty_r (a : string) : a ++ "" = a.
Proof.
  induction a as [|ch a IH]; simpl; [reflexivity | now rewrite IH].
Qed.

Lemma truthy_nonempty (s : string) : truthy s = true <-> s <> "".
Proof.
  destruct s; simpl; split; intros H; try discriminate; try reflexivity.
  now contradiction H.
Qed.

Lemma truthy_empty (s : string) : truthy s = false <-> s = "".
Proof.
  destruct s; simpl; split; intros H; try discriminate; reflexivity.
Qed.

Lemma startsWith_begins (s p : string) : startsWith s p = true <-> begins_with s p.
Proof.
  unfold startsWith, begins_with.
  revert s; induction p as [|a p IH]; intros s.
  - split; [intros _; now exists s | now destruct s].
  - destruct s as [|b s]; simpl.
    + split; [discriminate | intros [r Hr]; discriminate].
    + destruct (ascii_dec a b) as [->|Hne].
      * rewrite IH. split; intros [r Hr]; exists r.
        -- now rewrite Hr.
        -- now inversion Hr.
      * split; [discriminate | intros [r Hr]; inversion Hr; congruence].
Qed.

Lemma includes_here (before s after : string) : includes (before ++ s ++ after) s.
Proof. now exists before, after. Qed.

(** ** Construction *)

Lemma constructor_cases (options : DiscordWebhookOptions) :
  (begins_with (opt_webhookUrl options) DiscordWebhook.WEBHOOK_PREFIX
   /\ DiscordWebhook.constructor options
      = Return (DiscordWebhook.mk (opt_webhookUrl options) (opt_username options)
                                  (opt_avatarUrl options)
                                  (or_default (opt_timeout options) 10000)))
  \/ (~ begins_with (opt_webhookUrl options) DiscordWebhook.WEBHOOK_PREFIX
      /\ DiscordWebhook.constructor options
         = Throw (Error "Invalid webhook URL. Must be a Discord webhook URL.")).
Proof.
  unfold DiscordWebhook.constructor.
  destruct (startsWith (opt_webhookUrl options) DiscordWebhook.WEBHOOK_PREFIX) eqn:Hp.
  - left. apply startsWith_begins in Hp. split; [exact Hp|].
    destruct Hp as [r Hr]. rewrite Hr. reflexivity.
  - right. split.
    + intros Hb. apply startsWith_begins in Hb. congruence.
    + now rewrite orb_true_r.
Qed.

(** C1. Construction of a client throws if and only if the endpoint is
    empty or does not begin with ["https://discord.com/api/webhooks/"]; what
    it throws is then the configuration error and nothing else; and for
    every endpoint that begins with the prefix construction returns a client
    holding that endpoint. *)
Theorem constructor_fails_iff_bad_endpoint (options : DiscordWebhookOptions) :
  ((exists e, DiscordWebhook.constructor options = Throw e)
   <-> (opt_webhookUrl options = ""
        \/ ~ begins_with (opt_webhookUrl options) "https://discord.com/api/webhooks/"))
  /\ (forall e, DiscordWebhook.constructor options = Throw e -> ConfigurationError e)
  /\ (begins_with (opt_webhookUrl options) "https://discord.com/api/webhooks/"
      -> exists this, DiscordWebhook.constructor options = Return this
                      /\ DiscordWebhook.webhookUrl this = opt_webhookUrl options).
Proof.
  change "https://discord.com/api/webhooks/" with DiscordWebhook.WEBHOOK_PREFIX.
  destruct (constructor_cases options) as [[Hb Hc]|[Hn Hc]]; rewrite Hc.
  - repeat split.
    + intros [e He]; discriminate.
    + intros [He|Hnb]; [|contradiction].
      destruct Hb as [r Hr]. rewrite He in Hr. discriminate.
    + intros e He; discriminate.
    + intros _. eexists; split; reflexivity.
  - repeat split.
    + intros _. now right.
    + intros _. eexists; reflexivity.
    + intros e He. injection He as <-. reflexivity.
    + intros Hb; contradiction.
Qed.

(** The empty endpoint is rejected, a foreign endpoint is rejected with the
    configuration error, a webhook URL is accepted. *)
Lemma constructor_fails_iff_bad_endpoint_witness :
  (exists e, DiscordWebhook.constructor (mkOptions "" None None None) = Throw e)
  /\ (DiscordWebhook.constructor (mkOptions "https://example.com/webhook" None None None)
      = Throw (Error "Invalid webhook URL. Must be a Discord webhook URL.")
      /\ ConfigurationError (Error "Invalid webhook URL. Must be a Discord webhook URL."))
  /\ (exists this,
         DiscordWebhook.constructor
           (mkOptions "https://discord.com/api/webhooks/123/abc" None None None)
         = Return this
         /\ DiscordWebhook.webhookUrl this = "https://discord.com/api/webhooks/123/abc").
Proof.
  split; [|split].
  - apply (proj1 (constructor_fails_iff_bad_endpoint (mkOptions "" None None None))).
    left. reflexivity.
  - split; [reflexivity|].
    apply (proj1 (proj2 (constructor_fails_iff_bad_endpoint
                           (mkOptions "https://example.com/webhook" None None None)))).
    reflexivity.
  - apply (proj2 (proj2 (constructor_fails_iff_bad_endpoint
                           (mkOptions "https://discord.com/api/webhooks/123/abc"
                                      None None None)))).
    exists "123/abc". reflexivity.
Defined.

(** ** The dispatch routine *)

Section Dispatch.

Variable this : DiscordWebhook.t.
Variable payload : DiscordWebhookPayload.
Variable h : Host.
Variable log : Log.

Let request := DiscordWebhook.request_of this payload.
Let outcome := transport h request (DiscordWebhook.timeout this).

(** Whatever the outcome, [_execute] makes one network attempt: the log
    grows by the request and by nothing else. *)
Lemma execute_one_attempt :
  snd (DiscordWebhook._execute this payload h log) = (log ++ [request])%list.
Proof.
  unfold DiscordWebhook._execute, try_catch, bind, fetch.
  fold request. fold outcome.
  destruct outcome as [r| |e]; simpl.
  - destruct (ok r); simpl; [reflexivity|].
    unfold await, throw. destruct (response_text r) as [txt|e|]; simpl.
    + reflexivity.
    + destruct e as [n m|d]; [destruct (String.eqb n "AbortError")|]; reflexivity.
    + reflexivity.
  - reflexivity.
  - destruct e as [n m|d]; [destruct (String.eqb n "AbortError")|]; reflexivity.
Qed.

(** A response with a status in 200-299 makes the call return. *)
Lemma execute_success (r : Response) :
  outcome = Responded r -> ok r = true ->
  DiscordWebhook._execute this payload h log = (Return tt, (log ++ [request])%list).
Proof.
  intros Ho Hok.
  unfold DiscordWebhook._execute, try_catch, bind, fetch.
  fold request. fold outcome. rewrite Ho. simpl. rewrite Hok. reflexivity.
Qed.

(** A response with any other status, whose body could be read. *)
Lemma execute_not_ok (r : Response) (body : string) :
  outcome = Responded r -> ok r = false -> response_text r = Return body ->
  DiscordWebhook._execute this payload h log
  = (Throw (Error ("Failed to send webhook: Discord API error: "
                   ++ Number_toString (status r) ++ " " ++ statusText r
                   ++ " - " ++ body)),
     (log ++ [request])%list).
Proof.
  intros Ho Hok Hb.
  unfold DiscordWebhook._execute, try_catch, bind, fetch.
  fold request. fold outcome. rewrite Ho. simpl. rewrite Hok. simpl.
  unfold await. rewrite Hb. reflexivity.
Qed.

(** The timer fired first and the request was aborted. *)
Lemma execute_aborted :
  outcome = Aborted ->
  DiscordWebhook._execute this payload h log
  = (Throw (Error ("Failed to send webhook: Request timeout after "
                   ++ Number_toString (DiscordWebhook.timeout this) ++ "ms")),
     (log ++ [request])%list).
Proof.
  intros Ho.
  unfold DiscordWebhook._execute, try_catch, bind, fetch.
  fold request. fold outcome. rewrite Ho. reflexivity.
Qed.

(** Any other [Error] is reported with its message. *)
Lemma execute_rejected (n m : string) :
  outcome = Rejected (ErrorObject n m) -> n <> "AbortError" ->
  DiscordWebhook._execute this payload h log
  = (Throw (Error ("Failed to send webhook: " ++ m)), (log ++ [request])%list).
Proof.
  intros Ho Hn.
  unfold DiscordWebhook._execute, try_catch, bind, fetch.
  fold request. fold outcome. rewrite Ho. simpl.
  apply String.eqb_neq in Hn. rewrite Hn. reflexivity.
Qed.

End Dispatch.

(** ** Serialisation of the payload *)

Lemma stringify_embeds_member (p : DiscordWebhookPayload) :
  json_get "embeds" (JSON_stringify p)
  = option_map (fun es => JArray (map stringify_embed es)) (embeds p).
Proof.
  destruct p as [[c|] [u|] [a|] [es|]]; reflexivity.
Qed.

Lemma stringify_content_member (p : DiscordWebhookPayload) :
  json_get "content" (JSON_stringify p) = option_map JString (content p).
Proof.
  destruct p as [[c|] [u|] [a|] [es|]]; reflexivity.
Qed.

Lemma stringify_title_member (e : DiscordEmbed) :
  json_get "title" (stringify_embed e) = option_map JString (title e).
Proof.
  destruct e as [[t|] [d|] [u|] [ts|] [c|] [f|] [i|] [th|] [fs|]]; reflexivity.
Qed.

Lemma stringify_description_member (e : DiscordEmbed) :
  json_get "description" (stringify_embed e) = option_map JString (description e).
Proof.
  destruct e as [[t|] [d|] [u|] [ts|] [c|] [f|] [i|] [th|] [fs|]]; reflexivity.
Qed.

Lemma stringify_image_member (e : DiscordEmbed) :
  json_get "image" (stringify_embed e) = option_map stringify_media (image e).
Proof.
  destruct e as [[t|] [d|] [u|] [ts|] [c|] [f|] [i|] [th|] [fs|]]; reflexivity.
Qed.

Lemma stringify_fields_member (e : DiscordEmbed) :
  json_get "fields" (stringify_embed e)
  = option_map (fun fs => JArray (map stringify_field fs)) (fields e).
Proof.
  destruct e as [[t|] [d|] [u|] [ts|] [c|] [f|] [i|] [th|] [fs|]]; reflexivity.
Qed.

(** ** sendEmbeds *)

(** C2. For an empty sequence of embeds and for one of 11 or more,
    [sendEmbeds] throws a validation error and the request log is left as it
    was: no network attempt is made. *)
Theorem sendEmbeds_rejects_without_dispatch
        (this : DiscordWebhook.t) (embeds : list DiscordEmbed) (h : Host) (log : Log) :
  (length embeds = 0 \/ 11 <= length embeds)%nat ->
  exists e, DiscordWebhook.sendEmbeds this embeds h log = (Throw e, log)
            /\ ValidationError e.
Proof.
  intros Hlen. unfold DiscordWebhook.sendEmbeds, ValidationError.
  destruct (Z.of_nat (length embeds) =? 0) eqn:H0.
  - eexists; split; [reflexivity | now left].
  - destruct (10 <? Z.of_nat (length embeds)) eqn:H10.
    + eexists; split; [reflexivity | now right].
    + apply Z.eqb_neq in H0. apply Z.ltb_ge in H10. lia.
Qed.

Lemma sendEmbeds_rejects_without_dispatch_witness :
  (exists e, DiscordWebhook.sendEmbeds client_default [] host_accepting [] = (Throw e, [])
             /\ ValidationError e)
  /\ (exists e, DiscordWebhook.sendEmbeds client_default (repeat empty_embed 11)
                                          host_accepting []
                = (Throw e, [])
                /\ ValidationError e).
Proof.
  split.
  - apply (sendEmbeds_rejects_without_dispatch client_default [] host_accepting []).
    left. reflexivity.
  - apply (sendEmbeds_rejects_without_dispatch client_default (repeat empty_embed 11)
                                               host_accepting []).
    right. simpl. lia.
Defined.

(** C3. For a sequence of 1 to 10 embeds [sendEmbeds] makes exactly one
    network attempt, whatever its outcome; the payload of that request has
    the given sequence as its [embeds], and the body lists the embeds one by
    one in the given order. *)
Theorem sendEmbeds_dispatches_sequence_once
        (this : DiscordWebhook.t) (es : list DiscordEmbed) (h : Host) (log : Log) :
  (1 <= length es <= 10)%nat ->
  exists (outcome : Completion unit) (payload : DiscordWebhookPayload),
    DiscordWebhook.sendEmbeds this es h log
    = (outcome, (log ++ [DiscordWebhook.request_of this payload])%list)
    /\ embeds payload = Some es
    /\ json_get "embeds" (req_body (DiscordWebhook.request_of this payload))
       = Some (JArray (map stringify_embed es))
    /\ (forall i, nth_error (map stringify_embed es) i
                  = option_map stringify_embed (nth_error es i)).
Proof.
  intros [Hlo Hhi].
  exists (fst (DiscordWebhook.sendEmbeds this es h log)).
  exists (mkPayload None (DiscordWebhook.username this) (DiscordWebhook.avatarUrl this)
                    (Some es)).
  repeat split.
  - unfold DiscordWebhook.sendEmbeds.
    replace (Z.of_nat (length es) =? 0) with false by (symmetry; apply Z.eqb_neq; lia).
    replace (10 <? Z.of_nat (length es)) with false by (symmetry; apply Z.ltb_ge; lia).
    rewrite <- execute_one_attempt with (h := h). now destruct (DiscordWebhook._execute _ _ _ _).
  - exact (stringify_embeds_member _).
  - intros i. apply nth_error_map.
Qed.

Lemma sendEmbeds_dispatches_sequence_once_witness :
  exists (outcome : Completion unit) (payload : DiscordWebhookPayload),
    DiscordWebhook.sendEmbeds client_default
                              [set_title "first" empty_embed; set_title "second" empty_embed]
                              host_accepting []
    = (outcome, [DiscordWebhook.request_of client_default payload])
    /\ embeds payload = Some [set_title "first" empty_embed; set_title "second" empty_embed].
Proof.
  destruct (sendEmbeds_dispatches_sequence_once
              client_default
              [set_title "first" empty_embed; set_title "second" empty_embed]
              host_accepting [])
    as (outcome & payload & Hrun & Hembeds & _).
  - simpl. lia.
  - exists outcome, payload. split; [exact Hrun | exact Hembeds].
Defined.

(** ** sendStatus *)

Section StatusEmbed.

Variable st : DiscordStatusColor.
Variable ttl : string.
Variable desc : option string.
Variable flds : option (list DiscordEmbedField).
Variable img : option string.
Variable now : string.

Let embed := DiscordWebhook.status_embed st ttl desc flds img now.

(** The three conditional assignments leave the other properties alone. *)
Lemma status_embed_fixed_part :
  title embed = Some ttl
  /\ color embed = Some (DiscordWebhook.STATUS_COLORS st)
  /\ timestamp embed = Some now
  /\ url embed = None /\ footer embed = None /\ thumbnail embed = None.
Proof.
  unfold embed, DiscordWebhook.status_embed.
  destruct desc as [d|]; [destruct (truthy d)|];
    (destruct flds as [fs|]; [destruct (0 <? Z.of_nat (length fs))|]);
    (destruct img as [u|]; [destruct (truthy u)|]);
    repeat split.
Qed.

Lemma status_embed_description :
  description embed
  = match desc with
    | Some d => if truthy d then Some d else None
    | None => None
    end.
Proof.
  unfold embed, DiscordWebhook.status_embed.
  destruct desc as [d|]; [destruct (truthy d)|];
    (destruct flds as [fs|]; [destruct (0 <? Z.of_nat (length fs))|]);
    (destruct img as [u|]; [destruct (truthy u)|]);
    reflexivity.
Qed.

Lemma status_embed_fields :
  fields embed
  = match flds with
    | Some fs => if 0 <? Z.of_nat (length fs) then Some fs else None
    | None => None
    end.
Proof.
  unfold embed, DiscordWebhook.status_embed.
  destruct desc as [d|]; [destruct (truthy d)|];
    (destruct flds as [fs|]; [destruct (0 <? Z.of_nat (length fs))|]);
    (destruct img as [u|]; [destruct (truthy u)|]);
    reflexivity.
Qed.

Lemma status_embed_image :
  image embed
  = match img with
    | Some u => if truthy u then Some (mkMedia u) else None
    | None => None
    end.
Proof.
  unfold embed, DiscordWebhook.status_embed.
  destruct desc as [d|]; [destruct (truthy d)|];
    (destruct flds as [fs|]; [destruct (0 <? Z.of_nat (length fs))|]);
    (destruct img as [u|]; [destruct (truthy u)|]);
    reflexivity.
Qed.

Lemma status_embed_description_iff (x : string) :
  description embed = Some x <-> desc = Some x /\ x <> "".
Proof.
  rewrite status_embed_description.
  destruct desc as [d|]; [destruct (truthy d) eqn:Ht|].
  - apply truthy_nonempty in Ht.
    split; [intros [= <-]; now split | now intros [[= <-] _]].
  - apply truthy_empty in Ht. subst d.
    split; [discriminate | intros [[= <-] Hx]; now contradiction Hx].
  - split; [discriminate | now intros [? _]].
Qed.

Lemma status_embed_fields_iff (x : list DiscordEmbedField) :
  fields embed = Some x <-> flds = Some x /\ x <> [].
Proof.
  rewrite status_embed_fields.
  destruct flds as [[|f fs]|]; simpl.
  - split; [discriminate | intros [[= <-] Hx]; now contradiction Hx].
  - split; [intros [= <-]; split; [reflexivity | discriminate] | now intros [[= <-] _]].
  - split; [discriminate | now intros [? _]].
Qed.

Lemma status_embed_image_iff (m : Media) :
  image embed = Some m <-> exists u, img = Some u /\ u <> "" /\ m = mkMedia u.
Proof.
  rewrite status_embed_image.
  destruct img as [u|]; [destruct (truthy u) eqn:Ht|].
  - apply truthy_nonempty in Ht.
    split; [intros [= <-]; now exists u | now intros (u' & [= <-] & _ & ->)].
  - apply truthy_empty in Ht. subst u.
    split; [discriminate | intros (u' & [= <-] & Hu & _); now contradiction Hu].
  - split; [discriminate | now intros (u' & ? & _)].
Qed.

End StatusEmbed.

(** [sendStatus] is one call of [_execute] on a payload without [content]
    whose [embeds] is the one-element list of the status embed. *)
Lemma sendStatus_unfold (this : DiscordWebhook.t) (st : DiscordStatusColor) (ttl : string)
      (desc : option string) (flds : option (list DiscordEmbedField))
      (img : option string) (h : Host) (log : Log) :
  DiscordWebhook.sendStatus this st ttl desc flds img h log
  = DiscordWebhook._execute
      this
      (mkPayload None (DiscordWebhook.username this) (DiscordWebhook.avatarUrl this)
                 (Some [DiscordWebhook.status_embed st ttl desc flds img (now_iso h)]))
      h log.
Proof. reflexivity. Qed.

(** C4. Whatever the arguments, [sendStatus] makes one network attempt with
    a payload that has no [content] and whose [embeds] is a list of exactly
    one embed.  That embed has the title, the colour of the status and the
    clock reading as timestamp; it has a description, a field list or an
    image exactly when the argument was given and is not empty, and then
    with the value given; without a field list the serialised embed has no
    ["fields"] key. *)
Theorem sendStatus_dispatches_one_status_embed
        (this : DiscordWebhook.t) (st : DiscordStatusColor) (ttl : string)
        (desc : option string) (flds : option (list DiscordEmbedField))
        (img : option string) (h : Host) (log : Log) :
  exists (outcome : Completion unit) (embed : DiscordEmbed) (payload : DiscordWebhookPayload),
    DiscordWebhook.sendStatus this st ttl desc flds img h log
    = (outcome, (log ++ [DiscordWebhook.request_of this payload])%list)
    /\ content payload = None
    /\ embeds payload = Some [embed]
    /\ json_get "content" (JSON_stringify payload) = None
    /\ json_get "embeds" (JSON_stringify payload) = Some (JArray [stringify_embed embed])
    /\ title embed = Some ttl
    /\ color embed = Some (DiscordWebhook.STATUS_COLORS st)
    /\ timestamp embed = Some (now_iso h)
    /\ (forall d, description embed = Some d <-> desc = Some d /\ d <> "")
    /\ (forall fs, fields embed = Some fs <-> flds = Some fs /\ fs <> [])
    /\ (forall m, image embed = Some m
                  <-> exists u, img = Some u /\ u <> "" /\ m = mkMedia u)
    /\ (flds = None \/ flds = Some [] ->
        fields embed = None /\ json_get "fields" (stringify_embed embed) = None).
Proof.
  pose proof (status_embed_fixed_part st ttl desc flds img (now_iso h))
    as (Ht & Hc & Hts & _).
  exists (fst (DiscordWebhook.sendStatus this st ttl desc flds img h log)).
  exists (DiscordWebhook.status_embed st ttl desc flds img (now_iso h)).
  exists (mkPayload None (DiscordWebhook.username this) (DiscordWebhook.avatarUrl this)
                    (Some [DiscordWebhook.status_embed st ttl desc flds img (now_iso h)])).
  split.
  { rewrite sendStatus_unfold, <- execute_one_attempt with (h := h).
    now destruct (DiscordWebhook._execute _ _ _ _). }
  split; [reflexivity|].
  split; [reflexivity|].
  split; [exact (stringify_content_member _)|].
  split; [exact (stringify_embeds_member _)|].
  split; [exact Ht|].
  split; [exact Hc|].
  split; [exact Hts|].
  split; [intros d; apply status_embed_description_iff|].
  split; [intros fs; apply status_embed_fields_iff|].
  split; [intros m; apply status_embed_image_iff|].
  intros Hno.
  rewrite stringify_fields_member, status_embed_fields.
  destruct Hno as [->| ->]; split; reflexivity.
Qed.

(** With no field list and no image given, the one request carries an embed
    that has neither key. *)
Lemma sendStatus_dispatches_one_status_embed_witness :
  exists (outcome : Completion unit) (embed : DiscordEmbed) (payload : DiscordWebhookPayload),
    DiscordWebhook.sendStatus client_default success "OK" (Some "all good") None None
                              host_accepting []
    = (outcome, [DiscordWebhook.request_of client_default payload])
    /\ embeds payload = Some [embed]
    /\ description embed = Some "all good"
    /\ fields embed = None
    /\ json_get "fields" (stringify_embed embed) = None.
Proof.
  destruct (sendStatus_dispatches_one_status_embed
              client_default success "OK" (Some "all good") None None host_accepting [])
    as (outcome & embed & payload & Hrun & _ & Hembeds & _ & _ & _ & _ & _
        & Hdesc & _ & _ & Hnofields).
  exists outcome, embed, payload.
  split; [exact Hrun|].
  split; [exact Hembeds|].
  split; [apply Hdesc; split; [reflexivity | discriminate]|].
  apply Hnofields. left. reflexivity.
Defined.

(** The end-to-end scenario: the request that leaves the client. *)
Example sendStatus_end_to_end :
  DiscordWebhook.sendStatus client_default success "OK" (Some "all good") None None
                            host_accepting []
  = (Return tt,
     [mkRequest "https://discord.com/api/webhooks/123/abc" "POST"
                [("Content-Type", "application/json")]
                (JObject
                   [("embeds",
                     JArray [JObject [("title", JString "OK");
                                      ("description", JString "all good");
                                      ("timestamp", JString clock_reading);
                                      ("color", JNumber 0x57F287)]])])]).
Proof. reflexivity. Qed.

(** C10. The title given to [sendStatus] is always in the embed that is
    dispatched, the empty title included: the serialised embed has a
    ["title"] key holding the given string.  An empty description, by
    contrast, leaves no ["description"] key. *)
Theorem sendStatus_title_is_unconditional
        (this : DiscordWebhook.t) (st : DiscordStatusColor) (ttl : string)
        (desc : option string) (flds : option (list DiscordEmbedField))
        (img : option string) (h : Host) (log : Log) :
  exists (outcome : Completion unit) (embed : DiscordEmbed),
    DiscordWebhook.sendStatus this st ttl desc flds img h log
    = (outcome,
       (log ++ [DiscordWebhook.request_of
                  this
                  (mkPayload None (DiscordWebhook.username this)
                             (DiscordWebhook.avatarUrl this) (Some [embed]))])%list)
    /\ title embed = Some ttl
    /\ json_get "title" (stringify_embed embed) = Some (JString ttl)
    /\ (desc = Some "" -> json_get "description" (stringify_embed embed) = None).
Proof.
  exists (fst (DiscordWebhook.sendStatus this st ttl desc flds img h log)).
  exists (DiscordWebhook.status_embed st ttl desc flds img (now_iso h)).
  pose proof (status_embed_fixed_part st ttl desc flds img (now_iso h)) as (Ht & _).
  split.
  { rewrite sendStatus_unfold, <- execute_one_attempt with (h := h).
    now destruct (DiscordWebhook._execute _ _ _ _). }
  split; [exact Ht|].
  split.
  - rewrite stringify_title_member, Ht. reflexivity.
  - intros ->. rewrite stringify_description_member, status_embed_description.
    reflexivity.
Qed.

(** [sendStatus(status, "")] with an empty description as well: the embed
    has the title [""] and no description. *)
Lemma sendStatus_title_is_unconditional_witness :
  exists (outcome : Completion unit) (embed : DiscordEmbed),
    DiscordWebhook.sendStatus client_default info "" (Some "") None None host_accepting []
    = (outcome,
       [DiscordWebhook.request_of client_default (mkPayload None None None (Some [embed]))])
    /\ title embed = Some ""
    /\ json_get "title" (stringify_embed embed) = Some (JString "")
    /\ json_get "description" (stringify_embed embed) = None.
Proof.
  destruct (sendStatus_title_is_unconditional
              client_default info "" (Some "") None None host_accepting [])
    as (outcome & embed & Hrun & Ht & Hjt & Hjd).
  exists outcome, embed.
  split; [exact Hrun|].
  split; [exact Ht|].
  split; [exact Hjt|].
  apply Hjd. reflexivity.
Defined.

(** ** The dispatch routine: failures *)

(** C6, as the code has it. When the response to a dispatch has a status
    outside 200-299 and the read of its body gives the body text,
    [_execute] throws the remote error, after its one network attempt; the
    message of the error includes the decimal status code, the status text
    and the body text. *)
Theorem execute_reports_remote_error
        (this : DiscordWebhook.t) (payload : DiscordWebhookPayload) (h : Host) (log : Log)
        (r : Response) (body : string) :
  transport h (DiscordWebhook.request_of this payload) (DiscordWebhook.timeout this)
  = Responded r ->
  (status r < 200 \/ 299 < status r) ->
  response_text r = Return body ->
  exists msg,
    DiscordWebhook._execute this payload h log
    = (Throw (Error msg), (log ++ [DiscordWebhook.request_of this payload])%list)
    /\ RemoteError (status r) (statusText r) body (Error msg)
    /\ includes msg (Number_toString (status r))
    /\ includes msg (statusText r)
    /\ includes msg body.
Proof.
  intros Ho Hst Hb.
  assert (Hok : ok r = false).
  { unfold ok. apply andb_false_iff.
    destruct Hst; [left; apply Z.leb_gt | right; apply Z.ltb_ge]; lia. }
  eexists. split; [apply (execute_not_ok this payload h log r body Ho Hok Hb)|].
  split; [reflexivity|].
  split; [|split].
  - apply includes_here.
  - rewrite <- (append_assoc (Number_toString (status r)) " ").
    rewrite <- (append_assoc "Failed to send webhook: Discord API error: ").
    apply includes_here.
  - exists ("Failed to send webhook: Discord API error: "
            ++ Number_toString (status r) ++ " " ++ statusText r ++ " - "), "".
    rewrite append_empty_r, !append_assoc. reflexivity.
Qed.

(** A 404 "Not Found" with body "Unknown Webhook". *)
Lemma execute_reports_remote_error_witness :
  exists msg,
    DiscordWebhook._execute client_default (mkPayload (Some "ping") None None None)
                            host_unknown_webhook []
    = (Throw (Error msg),
       [DiscordWebhook.request_of client_default (mkPayload (Some "ping") None None None)])
    /\ includes msg "404" /\ includes msg "Not Found" /\ includes msg "Unknown Webhook".
Proof.
  destruct (execute_reports_remote_error
              client_default (mkPayload (Some "ping") None None None)
              host_unknown_webhook []
              (mkResponse 404 "Not Found" (Return "Unknown Webhook")) "Unknown Webhook")
    as (msg & Hrun & _ & Hcode & Htext & Hbody).
  - reflexivity.
  - right. simpl. lia.
  - reflexivity.
  - exists msg. split; [exact Hrun|]. split; [exact Hcode|]. split; assumption.
Defined.

Lemma includesb_step (s sub : string) :
  includesb s sub
  = String.prefix sub s
    || match s with
       | EmptyString => false
       | String _ rest => includesb rest sub
       end.
Proof. destruct s; reflexivity. Qed.

Lemma includes_includesb (s sub : string) : includes s sub -> includesb s sub = true.
Proof.
  intros (before & after & ->).
  induction before as [|c before IH].
  - assert (Hp : String.prefix sub (sub ++ after) = true)
      by (apply (startsWith_begins (sub ++ after) sub); now exists after).
    rewrite includesb_step. change ("" ++ sub ++ after) with (sub ++ after).
    rewrite Hp. reflexivity.
  - change (String c before ++ sub ++ after) with (String c (before ++ sub ++ after)).
    rewrite includesb_step. cbv iota. rewrite IH. apply orb_true_r.
Qed.

(** C6 as stated fails when the body of the response is not read.  A
    response with status 500 whose body read fails makes [_execute] throw
    an error whose message has neither the status code nor the status
    text; a response with status 503 whose body never arrives leaves
    [_execute] pending, so that it does not fail at all. *)
Lemma non_2xx_without_body_text_is_not_remote_error :
  (transport host_broken_body
             (DiscordWebhook.request_of client_default (mkPayload (Some "ping") None None None))
             (DiscordWebhook.timeout client_default)
   = Responded (mkResponse 500 "Internal Server Error"
                           (Throw (ErrorObject "FetchError" "Premature close")))
   /\ DiscordWebhook._execute client_default (mkPayload (Some "ping") None None None)
                              host_broken_body []
      = (Throw (Error "Failed to send webhook: Premature close"),
         [DiscordWebhook.request_of client_default (mkPayload (Some "ping") None None None)])
   /\ ~ includes "Failed to send webhook: Premature close" (Number_toString 500)
   /\ ~ includes "Failed to send webhook: Premature close" "Internal Server Error")
  /\ (transport host_stalled_body
                (DiscordWebhook.request_of client_default
                                           (mkPayload (Some "ping") None None None))
                (DiscordWebhook.timeout client_default)
      = Responded (mkResponse 503 "Service Unavailable" Pending)
      /\ DiscordWebhook._execute client_default (mkPayload (Some "ping") None None None)
                                 host_stalled_body []
         = (Pending,
            [DiscordWebhook.request_of client_default
                                       (mkPayload (Some "ping") None None None)])).
Proof.
  split; [split; [reflexivity|split; [reflexivity|split]] | split; reflexivity].
  - intros H. apply includes_includesb in H. discriminate H.
  - intros H. apply includes_includesb in H. discriminate H.
Qed.

Example remote_error_message :
  DiscordWebhook._execute client_default (mkPayload (Some "ping") None None None)
                          host_unknown_webhook []
  = (Throw (Error "Failed to send webhook: Discord API error: 404 Not Found - Unknown Webhook"),
     [DiscordWebhook.request_of client_default (mkPayload (Some "ping") None None None)]).
Proof. reflexivity. Qed.

(** C7. When the timer armed with the configured timeout fires before a
    response arrives and the request is aborted, [_execute] throws the
    timeout error, after its one network attempt; the message of the error
    includes the configured timeout in decimal. *)
Theorem execute_reports_timeout
        (this : DiscordWebhook.t) (payload : DiscordWebhookPayload) (h : Host) (log : Log) :
  transport h (DiscordWebhook.request_of this payload) (DiscordWebhook.timeout this)
  = Aborted ->
  exists msg,
    DiscordWebhook._execute this payload h log
    = (Throw (Error msg), (log ++ [DiscordWebhook.request_of this payload])%list)
    /\ TimeoutError (DiscordWebhook.timeout this) (Error msg)
    /\ includes msg (Number_toString (DiscordWebhook.timeout this)).
Proof.
  intros Ho.
  eexists. split; [apply (execute_aborted this payload h log Ho)|].
  split; [reflexivity | apply includes_here].
Qed.

(** A client configured with 50 ms against an endpoint that needs 500 ms. *)
Lemma execute_reports_timeout_witness :
  DiscordWebhook.constructor
    (mkOptions "https://discord.com/api/webhooks/123/abc" None None (Some 50))
  = Return client_50ms
  /\ exists msg,
      DiscordWebhook._execute client_50ms (mkPayload (Some "ping") None None None)
                              host_slow []
      = (Throw (Error msg),
         [DiscordWebhook.request_of client_50ms (mkPayload (Some "ping") None None None)])
      /\ includes msg "50".
Proof.
  split; [reflexivity|].
  destruct (execute_reports_timeout
              client_50ms (mkPayload (Some "ping") None None None) host_slow [])
    as (msg & Hrun & _ & Hinc).
  - reflexivity.
  - exists msg. split; [exact Hrun | exact Hinc].
Defined.

Example timeout_message :
  DiscordWebhook._execute client_50ms (mkPayload (Some "ping") None None None) host_slow []
  = (Throw (Error "Failed to send webhook: Request timeout after 50ms"),
     [DiscordWebhook.request_of client_50ms (mkPayload (Some "ping") None None None)]).
Proof. reflexivity. Qed.

(** The same endpoint answers in time for the default timeout. *)
Example default_timeout_is_enough :
  DiscordWebhook._execute client_default (mkPayload (Some "ping") None None None)
                          host_slow []
  = (Return tt,
     [DiscordWebhook.request_of client_default (mkPayload (Some "ping") None None None)]).
Proof. reflexivity. Qed.

(** ** EmbedBuilder *)

(** C5. [setStatusColor] followed by [build] gives the fixed colour of the
    status, on every builder: success 0x57F287, warning 0xFEE75C, error
    0xED4245, info 0x5865F2. *)
Theorem setStatusColor_build_color (b : EmbedBuilder.t) :
  color (EmbedBuilder.build (EmbedBuilder.setStatusColor success b)) = Some 0x57F287
  /\ color (EmbedBuilder.build (EmbedBuilder.setStatusColor warning b)) = Some 0xFEE75C
  /\ color (EmbedBuilder.build (EmbedBuilder.setStatusColor error b)) = Some 0xED4245
  /\ color (EmbedBuilder.build (EmbedBuilder.setStatusColor info b)) = Some 0x5865F2.
Proof. repeat split. Qed.

(** The colours in decimal, and each within 24 bits. *)
Lemma STATUS_COLORS_values (s : DiscordStatusColor) :
  DiscordWebhook.STATUS_COLORS s
  = match s with
    | success => 5763719
    | warning => 16705372
    | error => 15548997
    | info => 5793266
    end
  /\ 0 <= DiscordWebhook.STATUS_COLORS s <= 0xFFFFFF.
Proof. destruct s; simpl; lia. Qed.

(** [addField] touches the field list only. *)
Lemma addField_embed (n v : string) (i : option bool) (b : EmbedBuilder.t) :
  EmbedBuilder.embed (EmbedBuilder.addField n v i b)
  = set_fields (EmbedBuilder.fields_or_init (EmbedBuilder.embed b)
                ++ [mkField n v (Some (match i with Some x => x | None => false end))])
               (EmbedBuilder.embed b).
Proof. reflexivity. Qed.

Lemma fields_set_fields (fs : list DiscordEmbedField) (e : DiscordEmbed) :
  fields (set_fields fs e) = Some fs.
Proof. reflexivity. Qed.

(** C8. [addField] appends one field at the end of the field list, which
    starts empty when the builder has none, and the field is not inline
    when the flag is omitted; nothing else in the embed changes.  On a new
    builder, [addField("a","1")] then [addField("b","2")] builds the two
    fields in that order, both with [inline: false]; adding the same name
    twice keeps both fields. *)
Theorem addField_appends_in_order :
  (forall (n v : string) (i : option bool) (b : EmbedBuilder.t),
      let prior := match fields (EmbedBuilder.build b) with
                   | Some fs => fs
                   | None => []
                   end in
      let added := mkField n v (Some (match i with Some x => x | None => false end)) in
      fields (EmbedBuilder.build (EmbedBuilder.addField n v i b))
      = Some (prior ++ [added])%list
      /\ EmbedBuilder.build (EmbedBuilder.addField n v i b)
         = set_fields (prior ++ [added])%list (EmbedBuilder.build b))
  /\ fields (EmbedBuilder.build
               (EmbedBuilder.addField "b" "2" None
                  (EmbedBuilder.addField "a" "1" None EmbedBuilder.new)))
     = Some [mkField "a" "1" (Some false); mkField "b" "2" (Some false)]
  /\ (forall (n v w : string) (b : EmbedBuilder.t),
         let prior := match fields (EmbedBuilder.build b) with
                      | Some fs => fs
                      | None => []
                      end in
         fields (EmbedBuilder.build
                   (EmbedBuilder.addField n w None (EmbedBuilder.addField n v None b)))
         = Some (prior ++ [mkField n v (Some false); mkField n w (Some false)])%list).
Proof.
  split; [|split].
  - intros n v i b. split; reflexivity.
  - reflexivity.
  - intros n v w b. cbv zeta. unfold EmbedBuilder.build. rewrite !addField_embed.
    rewrite fields_set_fields. unfold EmbedBuilder.fields_or_init at 1.
    rewrite fields_set_fields. unfold EmbedBuilder.fields_or_init.
    now rewrite <- app_assoc.
Qed.

(** ** addFields against repeated addField *)

Lemma addFields_embed (fs : list DiscordEmbedField) (b : EmbedBuilder.t) :
  EmbedBuilder.embed (EmbedBuilder.addFields fs b)
  = set_fields (EmbedBuilder.fields_or_init (EmbedBuilder.embed b) ++ fs)
               (EmbedBuilder.embed b).
Proof. reflexivity. Qed.

(** With nothing to add, [addFields] still creates the list. *)
Lemma addFields_nil_initialised (b : EmbedBuilder.t) :
  fields (EmbedBuilder.embed b) <> None -> EmbedBuilder.addFields [] b = b.
Proof.
  destruct b as [[t d u ts c f i th [fs|]]]; intros H; [|now contradiction H].
  unfold EmbedBuilder.addFields, set_fields, EmbedBuilder.fields_or_init; simpl.
  now rewrite app_nil_r.
Qed.

(** One [addField] with an explicit flag, then [addFields] of the rest. *)
Lemma addFields_cons (f : DiscordEmbedField) (fs : list DiscordEmbedField)
      (i : bool) (b : EmbedBuilder.t) :
  inline f = Some i ->
  EmbedBuilder.addFields fs (EmbedBuilder.addField (name f) (value f) (inline f) b)
  = EmbedBuilder.addFields (f :: fs) b.
Proof.
  destruct f as [n v fi]; simpl. intros ->.
  unfold EmbedBuilder.addFields, EmbedBuilder.addField; simpl.
  unfold EmbedBuilder.fields_or_init at 1; simpl.
  now rewrite <- app_assoc.
Qed.

(** Repeated [addField] appends the given fields in order, each with its
    inline flag made explicit. *)
Lemma addField_each_fields (fs : list DiscordEmbedField) (b : EmbedBuilder.t) :
  fs <> [] ->
  fields (EmbedBuilder.build (addField_each fs b))
  = Some (EmbedBuilder.fields_or_init (EmbedBuilder.embed b)
          ++ map with_inline_default fs)%list.
Proof.
  revert b. induction fs as [|f fs IH]; intros b Hne; [now contradiction Hne|].
  destruct fs as [|g fs].
  - reflexivity.
  - change (addField_each (f :: g :: fs) b)
      with (addField_each (g :: fs)
              (EmbedBuilder.addField (name f) (value f) (inline f) b)).
    rewrite IH by discriminate.
    rewrite addField_embed. unfold EmbedBuilder.fields_or_init at 1.
    rewrite fields_set_fields, <- app_assoc. reflexivity.
Qed.

(** C9, as the code has it. For every builder and every sequence of fields
    that each carry an explicit inline flag, when the sequence is not empty
    or the builder already has a field list, [addFields] leaves the builder
    in the state that calling [addField] once per element, in order, leaves
    it in. *)
Theorem addFields_eq_repeated_addField
        (fs : list DiscordEmbedField) (b : EmbedBuilder.t) :
  Forall (fun f => inline f <> None) fs ->
  fs <> [] \/ fields (EmbedBuilder.build b) <> None ->
  EmbedBuilder.addFields fs b = addField_each fs b.
Proof.
  revert b. induction fs as [|f fs IH]; intros b Hall Hstart.
  - destruct Hstart as [Hne|Hinit]; [now contradiction Hne|].
    now apply addFields_nil_initialised.
  - inversion Hall as [|f' fs' Hf Hfs]; subst.
    destruct (inline f) as [i|] eqn:Hi; [|now contradiction Hf].
    change (addField_each (f :: fs) b)
      with (addField_each fs (EmbedBuilder.addField (name f) (value f) (inline f) b)).
    rewrite <- IH.
    + symmetry. now apply addFields_cons with (i := i).
    + exact Hfs.
    + right. discriminate.
Qed.

Lemma addFields_eq_repeated_addField_witness :
  EmbedBuilder.addFields [mkField "a" "1" (Some false); mkField "b" "2" (Some true)]
                         EmbedBuilder.new
  = addField_each [mkField "a" "1" (Some false); mkField "b" "2" (Some true)]
                  EmbedBuilder.new.
Proof.
  apply (addFields_eq_repeated_addField
           [mkField "a" "1" (Some false); mkField "b" "2" (Some true)] EmbedBuilder.new).
  - repeat constructor; discriminate.
  - left. discriminate.
Defined.

(** C9 as stated fails twice over.  On a new builder, [addFields([])]
    creates an empty field list where no call of [addField] leaves the
    embed without one; and [addFields] stores a field without an inline flag
    as it is, where [addField] stores it with [inline: false]. *)
Lemma addFields_differs_from_repeated_addField :
  (EmbedBuilder.addFields [] EmbedBuilder.new <> addField_each [] EmbedBuilder.new
   /\ fields (EmbedBuilder.build (EmbedBuilder.addFields [] EmbedBuilder.new)) = Some []
   /\ fields (EmbedBuilder.build (addField_each [] EmbedBuilder.new)) = None)
  /\ (EmbedBuilder.addFields [mkField "a" "1" None] EmbedBuilder.new
      <> addField_each [mkField "a" "1" None] EmbedBuilder.new
      /\ fields (EmbedBuilder.build
                   (EmbedBuilder.addFields [mkField "a" "1" None] EmbedBuilder.new))
         = Some [mkField "a" "1" None]
      /\ fields (EmbedBuilder.build (addField_each [mkField "a" "1" None] EmbedBuilder.new))
         = Some [mkField "a" "1" (Some false)]).
Proof.
  repeat split; discriminate.
Qed.

(** The two builders of the second case serialise differently. *)
Example addFields_keeps_missing_inline :
  stringify_embed (EmbedBuilder.build
                     (EmbedBuilder.addFields [mkField "a" "1" None] EmbedBuilder.new))
  = JObject [("fields", JArray [JObject [("name", JString "a"); ("value", JString "1")]])]
  /\ stringify_embed (EmbedBuilder.build
                        (addField_each [mkField "a" "1" None] EmbedBuilder.new))
     = JObject [("fields", JArray [JObject [("name", JString "a"); ("value", JString "1");
                                            ("inline", JBool false)]])].
Proof. split; reflexivity. Qed.

(** ** The free helper functions *)

(** With a webhook URL the helper is the method of a client built on it. *)
Lemma sendStatus_helper_delegates
      (webhookUrl : string) (st : DiscordStatusColor) (ttl : string)
      (desc : option string) (options : option SendStatusOptions) (h : Host) (log : Log) :
  begins_with webhookUrl DiscordWebhook.WEBHOOK_PREFIX ->
  sendStatus webhookUrl st ttl desc options h log
  = DiscordWebhook.sendStatus
      (DiscordWebhook.mk webhookUrl (opt_chain sso_username options)
                         (opt_chain sso_avatarUrl options) 10000)
      st ttl desc (opt_chain sso_fields options) (opt_chain sso_imageUrl options) h log.
Proof.
  intros Hb. unfold sendStatus, bind, await.
  destruct (constructor_cases (mkOptions webhookUrl (opt_chain sso_username options)
                                         (opt_chain sso_avatarUrl options) None))
    as [[_ Hc]|[Hn _]]; [|contradiction].
  rewrite Hc. reflexivity.
Qed.

(** X13. The helper [sendStatus] throws the "Invalid webhook URL" error of
    the constructor, and makes no network attempt, when its endpoint
    argument does not begin with the webhook prefix.  The helper
    [sendWebhook] does so when the endpoint that reaches the constructor
    does not begin with the prefix: the [webhookUrl] of the options object
    if it has one, the endpoint argument otherwise. *)
Lemma helpers_reject_bad_endpoint (webhookUrl : string) (h : Host) (log : Log) :
  (forall st ttl desc options,
      ~ begins_with webhookUrl DiscordWebhook.WEBHOOK_PREFIX ->
      sendStatus webhookUrl st ttl desc options h log
      = (Throw (Error "Invalid webhook URL. Must be a Discord webhook URL."), log))
  /\ (forall txt options,
         ~ begins_with (match opt_chain swo_webhookUrl options with
                        | Some u => u
                        | None => webhookUrl
                        end)
                       DiscordWebhook.WEBHOOK_PREFIX ->
         sendWebhook webhookUrl txt options h log
         = (Throw (Error "Invalid webhook URL. Must be a Discord webhook URL."), log)).
Proof.
  split.
  - intros st ttl desc options Hn. unfold sendStatus, bind, await.
    destruct (constructor_cases (mkOptions webhookUrl (opt_chain sso_username options)
                                           (opt_chain sso_avatarUrl options) None))
      as [[Hb _]|[_ Hc]]; [contradiction|].
    rewrite Hc. reflexivity.
  - intros txt options Hn. unfold sendWebhook, bind, await.
    destruct (constructor_cases (spread_options webhookUrl options))
      as [[Hb _]|[_ Hc]]; [contradiction|].
    rewrite Hc. reflexivity.
Qed.

(* ===================================================================== *)
(** * Further properties of the code *)
(* ===================================================================== *)

(** ** Configuration held by a client *)

(** X1. A client that the constructor returns holds the endpoint, user name
    and avatar of the options unchanged.  Its timeout is 10000 when the
    option is missing or 0, and the option's value otherwise, negative
    values included; it is never 0. *)
Theorem constructor_keeps_configuration
        (options : DiscordWebhookOptions) (this : DiscordWebhook.t) :
  DiscordWebhook.constructor options = Return this ->
  DiscordWebhook.webhookUrl this = opt_webhookUrl options
  /\ DiscordWebhook.username this = opt_username options
  /\ DiscordWebhook.avatarUrl this = opt_avatarUrl options
  /\ (opt_timeout options = None \/ opt_timeout options = Some 0
      -> DiscordWebhook.timeout this = 10000)
  /\ (forall t, opt_timeout options = Some t -> t <> 0 -> DiscordWebhook.timeout this = t)
  /\ DiscordWebhook.timeout this <> 0.
Proof.
  intros Hnew.
  destruct (constructor_cases options) as [[_ Hc]|[_ Hc]]; rewrite Hc in Hnew;
    [|discriminate].
  injection Hnew as <-. simpl.
  split; [reflexivity|]. split; [reflexivity|]. split; [reflexivity|].
  unfold or_default. split; [|split].
  - intros [-> | ->]; reflexivity.
  - intros t -> Ht. apply Z.eqb_neq in Ht. now rewrite Ht.
  - destruct (opt_timeout options) as [t|]; [|discriminate].
    destruct (t =? 0) eqn:Ht; [discriminate | now apply Z.eqb_neq].
Qed.

Lemma constructor_keeps_configuration_witness :
  exists this,
    DiscordWebhook.constructor
      (mkOptions "https://discord.com/api/webhooks/123/abc" (Some "Deploy Bot") None
                 (Some (-5)))
    = Return this
    /\ DiscordWebhook.username this = Some "Deploy Bot"
    /\ DiscordWebhook.timeout this = -5.
Proof.
  eexists. split; [reflexivity|].
  destruct (constructor_keeps_configuration
              (mkOptions "https://discord.com/api/webhooks/123/abc" (Some "Deploy Bot") None
                         (Some (-5)))
              (DiscordWebhook.mk "https://discord.com/api/webhooks/123/abc"
                                 (Some "Deploy Bot") None (-5)))
    as (_ & Hu & _ & _ & Ht & _).
  - reflexivity.
  - split; [exact Hu|]. apply (Ht (-5)); [reflexivity | discriminate].
Defined.

(** X2. Every request of a client that the constructor returned is a POST
    to the endpoint of the options, which begins with the webhook prefix;
    it has the JSON content type as its only header and the serialised
    payload as its body. *)
Theorem requests_go_to_configured_endpoint
        (options : DiscordWebhookOptions) (this : DiscordWebhook.t)
        (payload : DiscordWebhookPayload) (h : Host) (log : Log) :
  DiscordWebhook.constructor options = Return this ->
  exists r,
    snd (DiscordWebhook._execute this payload h log) = (log ++ [r])%list
    /\ req_url r = opt_webhookUrl options
    /\ begins_with (req_url r) "https://discord.com/api/webhooks/"
    /\ req_method r = "POST"
    /\ req_headers r = [("Content-Type", "application/json")]
    /\ req_body r = JSON_stringify payload.
Proof.
  intros Hnew.
  destruct (constructor_cases options) as [[Hb Hc]|[_ Hc]]; rewrite Hc in Hnew;
    [|discriminate].
  injection Hnew as <-.
  eexists. split; [apply execute_one_attempt|].
  simpl. repeat split. exact Hb.
Qed.

Lemma requests_go_to_configured_endpoint_witness :
  exists r,
    snd (DiscordWebhook._execute client_default (mkPayload (Some "ping") None None None)
                                 host_unreachable [])
    = [r]
    /\ req_url r = "https://discord.com/api/webhooks/123/abc"
    /\ req_method r = "POST".
Proof.
  destruct (requests_go_to_configured_endpoint
              (mkOptions "https://discord.com/api/webhooks/123/abc" None None None)
              client_default (mkPayload (Some "ping") None None None) host_unreachable [])
    as (r & Hlog & Hurl & _ & Hm & _).
  - reflexivity.
  - exists r. split; [exact Hlog|]. split; [exact Hurl | exact Hm].
Defined.

(** ** Outcomes of the dispatch routine *)

(** The result of [_execute], case by case on what the host did. *)
Lemma execute_outcome
      (this : DiscordWebhook.t) (payload : DiscordWebhookPayload) (h : Host) (log : Log) :
  DiscordWebhook._execute this payload h log
  = (match transport h (DiscordWebhook.request_of this payload)
                     (DiscordWebhook.timeout this) with
     | Responded r =>
         if ok r then Return tt
         else match response_text r with
              | Return body =>
                  Throw (Error ("Failed to send webhook: Discord API error: "
                                ++ Number_toString (status r) ++ " " ++ statusText r
                                ++ " - " ++ body))
              | Throw e => Throw (reported this e)
              | Pending => Pending
              end
     | Aborted =>
         Throw (Error ("Failed to send webhook: Request timeout after "
                       ++ Number_toString (DiscordWebhook.timeout this) ++ "ms"))
     | Rejected e => Throw (reported this e)
     end,
     (log ++ [DiscordWebhook.request_of this payload])%list).
Proof.
  unfold DiscordWebhook._execute, try_catch, bind, fetch, reported.
  destruct (transport h _ _) as [r| |e]; simpl.
  - destruct (ok r); simpl; [reflexivity|].
    unfold await, throw.
    destruct (response_text r) as [txt|e|]; simpl; [reflexivity| |reflexivity].
    destruct e as [n m|d]; [destruct (String.eqb n "AbortError")|]; reflexivity.
  - reflexivity.
  - destruct e as [n m|d]; [destruct (String.eqb n "AbortError")|]; reflexivity.
Qed.

Lemma reported_has_prefix (this : DiscordWebhook.t) (e : Thrown) :
  exists m, reported this e = Error ("Failed to send webhook: " ++ m).
Proof.
  destruct e as [n m|d]; simpl; [destruct (String.eqb n "AbortError")|];
    eexists; reflexivity.
Qed.

Lemma ok_true_range (r : Response) : ok r = true <-> 200 <= status r <= 299.
Proof.
  unfold ok. rewrite andb_true_iff, Z.leb_le, Z.ltb_lt. lia.
Qed.

Lemma ok_false_range (r : Response) : ok r = false <-> (status r < 200 \/ 299 < status r).
Proof.
  unfold ok. rewrite andb_false_iff, Z.leb_gt, Z.ltb_ge. lia.
Qed.

(** X3. [_execute] returns normally exactly when a response arrived whose
    status is in 200-299.  It never settles exactly when a response with
    another status arrived and the read of its body never settles: the
    timer is cleared before the body is read.  It throws exactly in the
    remaining cases: the request was aborted, [fetch] rejected, or a
    response with another status arrived and the read of its body settled. *)
Theorem execute_returns_iff_2xx
        (this : DiscordWebhook.t) (payload : DiscordWebhookPayload) (h : Host) (log : Log) :
  (fst (DiscordWebhook._execute this payload h log) = Return tt
   <-> exists r,
       transport h (DiscordWebhook.request_of this payload) (DiscordWebhook.timeout this)
       = Responded r
       /\ 200 <= status r <= 299)
  /\ (fst (DiscordWebhook._execute this payload h log) = Pending
      <-> exists r,
          transport h (DiscordWebhook.request_of this payload) (DiscordWebhook.timeout this)
          = Responded r
          /\ (status r < 200 \/ 299 < status r)
          /\ response_text r = Pending)
  /\ ((exists e, fst (DiscordWebhook._execute this payload h log) = Throw e)
      <-> (transport h (DiscordWebhook.request_of this payload) (DiscordWebhook.timeout this)
           = Aborted
           \/ (exists e,
                  transport h (DiscordWebhook.request_of this payload)
                            (DiscordWebhook.timeout this)
                  = Rejected e)
           \/ (exists r,
                  transport h (DiscordWebhook.request_of this payload)
                            (DiscordWebhook.timeout this)
                  = Responded r
                  /\ (status r < 200 \/ 299 < status r)
                  /\ response_text r <> Pending))).
Proof.
  rewrite execute_outcome. simpl.
  destruct (transport h _ _) as [r| |e].
  - destruct (ok r) eqn:Hok.
    + apply ok_true_range in Hok.
      split; [|split].
      * split; [intros _; now exists r | reflexivity].
      * split; [discriminate | intros (r' & [= <-] & Hout & _); lia].
      * split; [intros [e He]; discriminate|].
        intros [Ha|[[e He]|(r' & [= <-] & Hout & _)]]; [discriminate | discriminate | lia].
    + apply ok_false_range in Hok.
      split; [|split].
      * split; [destruct (response_text r); discriminate|].
        intros (r' & [= <-] & Hin); lia.
      * split.
        -- intros Hp. exists r. split; [reflexivity|]. split; [exact Hok|].
           destruct (response_text r); [discriminate | discriminate | reflexivity].
        -- intros (r' & [= <-] & _ & ->). reflexivity.
      * split.
        -- intros [e He]. right. right. exists r.
           split; [reflexivity|]. split; [exact Hok|].
           intros Hp. rewrite Hp in He. discriminate.
        -- intros [Ha|[[e He]|(r' & [= <-] & _ & Hnp)]]; [discriminate | discriminate |].
           destruct (response_text r) as [body|e|];
             [eexists; reflexivity | eexists; reflexivity | now contradiction Hnp].
  - split; [|split].
    + split; [discriminate | intros (r & Hr & _); discriminate].
    + split; [discriminate | intros (r & Hr & _); discriminate].
    + split; [intros _; now left | intros _; eexists; reflexivity].
  - split; [|split].
    + split; [discriminate | intros (r & Hr & _); discriminate].
    + split; [discriminate | intros (r & Hr & _); discriminate].
    + split; [intros _; right; left; now exists e | intros _; eexists; reflexivity].
Qed.

(** X4. Whatever goes wrong, what [_execute] throws is an [Error] whose
    message begins with "Failed to send webhook: "; no value of the host
    is thrown through unchanged. *)
Theorem execute_failures_are_normalised
        (this : DiscordWebhook.t) (payload : DiscordWebhookPayload) (h : Host) (log : Log)
        (e : Thrown) :
  fst (DiscordWebhook._execute this payload h log) = Throw e ->
  exists m, e = Error ("Failed to send webhook: " ++ m).
Proof.
  rewrite execute_outcome. simpl.
  destruct (transport h _ _) as [r| |e'].
  - destruct (ok r); [discriminate|].
    destruct (response_text r) as [body|e'|].
    + intros [= <-]. eexists; reflexivity.
    + intros [= <-]. apply reported_has_prefix.
    + discriminate.
  - intros [= <-]. eexists; reflexivity.
  - intros [= <-]. apply reported_has_prefix.
Qed.

Lemma execute_failures_are_normalised_witness :
  exists m,
    Error "Failed to send webhook: Unknown error" = Error ("Failed to send webhook: " ++ m).
Proof.
  apply (execute_failures_are_normalised
           client_default (mkPayload (Some "ping") None None None)
           host_rejecting_value []).
  reflexivity.
Defined.

(** X5. When [fetch] rejects with an [Error] that is not named
    [AbortError], [_execute] throws an [Error] whose message is "Failed to
    send webhook: " followed by the message of the cause; when [fetch]
    rejects with a value that is not an [Error], the message is "Failed to
    send webhook: Unknown error".  One network attempt was made. *)
Theorem execute_reports_transport_failure
        (this : DiscordWebhook.t) (payload : DiscordWebhookPayload) (h : Host) (log : Log) :
  (forall n m,
      transport h (DiscordWebhook.request_of this payload) (DiscordWebhook.timeout this)
      = Rejected (ErrorObject n m) ->
      n <> "AbortError" ->
      DiscordWebhook._execute this payload h log
      = (Throw (Error ("Failed to send webhook: " ++ m)),
         (log ++ [DiscordWebhook.request_of this payload])%list)
      /\ TransportError m (Error ("Failed to send webhook: " ++ m)))
  /\ (forall d,
         transport h (DiscordWebhook.request_of this payload) (DiscordWebhook.timeout this)
         = Rejected (NonError d) ->
         DiscordWebhook._execute this payload h log
         = (Throw (Error "Failed to send webhook: Unknown error"),
            (log ++ [DiscordWebhook.request_of this payload])%list)).
Proof.
  split.
  - intros n m Ho Hn. rewrite execute_outcome, Ho. simpl.
    apply String.eqb_neq in Hn. rewrite Hn. split; reflexivity.
  - intros d Ho. rewrite execute_outcome, Ho. reflexivity.
Qed.

Lemma execute_reports_transport_failure_witness :
  DiscordWebhook._execute client_default (mkPayload (Some "ping") None None None)
                          host_unreachable []
  = (Throw (Error "Failed to send webhook: getaddrinfo ENOTFOUND discord.com"),
     [DiscordWebhook.request_of client_default (mkPayload (Some "ping") None None None)])
  /\ DiscordWebhook._execute client_default (mkPayload (Some "ping") None None None)
                             host_rejecting_value []
     = (Throw (Error "Failed to send webhook: Unknown error"),
        [DiscordWebhook.request_of client_default (mkPayload (Some "ping") None None None)]).
Proof.
  split.
  - apply (proj1 (execute_reports_transport_failure
                    client_default (mkPayload (Some "ping") None None None)
                    host_unreachable [])
                 "FetchError" "getaddrinfo ENOTFOUND discord.com").
    + reflexivity.
    + discriminate.
  - apply (proj2 (execute_reports_transport_failure
                    client_default (mkPayload (Some "ping") None None None)
                    host_rejecting_value [])
                 "socket closed").
    reflexivity.
Defined.

(** X6. When the response has a status outside 200-299 and reading its
    body fails with an [Error] not named [AbortError], [_execute] throws
    "Failed to send webhook: " followed by the message of that failure: the
    message is made of the read failure alone, the status code and status
    text of the response are not put into it. *)
Theorem execute_body_read_failure
        (this : DiscordWebhook.t) (payload : DiscordWebhookPayload) (h : Host) (log : Log)
        (r : Response) (n m : string) :
  transport h (DiscordWebhook.request_of this payload) (DiscordWebhook.timeout this)
  = Responded r ->
  (status r < 200 \/ 299 < status r) ->
  response_text r = Throw (ErrorObject n m) ->
  n <> "AbortError" ->
  DiscordWebhook._execute this payload h log
  = (Throw (Error ("Failed to send webhook: " ++ m)),
     (log ++ [DiscordWebhook.request_of this payload])%list).
Proof.
  intros Ho Hst Hb Hn.
  assert (Hok : ok r = false).
  { unfold ok. apply andb_false_iff.
    destruct Hst; [left; apply Z.leb_gt | right; apply Z.ltb_ge]; lia. }
  rewrite execute_outcome, Ho, Hok, Hb. simpl.
  apply String.eqb_neq in Hn. now rewrite Hn.
Qed.

Lemma execute_body_read_failure_witness :
  DiscordWebhook._execute client_default (mkPayload (Some "ping") None None None)
                          host_broken_body []
  = (Throw (Error "Failed to send webhook: Premature close"),
     [DiscordWebhook.request_of client_default (mkPayload (Some "ping") None None None)]).
Proof.
  apply (execute_body_read_failure
           client_default (mkPayload (Some "ping") None None None) host_broken_body []
           (mkResponse 500 "Internal Server Error"
                       (Throw (ErrorObject "FetchError" "Premature close")))
           "FetchError" "Premature close").
  - reflexivity.
  - right. simpl. lia.
  - reflexivity.
  - discriminate.
Defined.

(** X7. For a client built from options whose timeout is missing or 0, the
    abort timer is armed with 10000 ms, and when it fires the error says
    "Request timeout after 10000ms": a configured 0 is not a zero
    deadline. *)
Theorem default_timeout_is_armed_and_reported
        (options : DiscordWebhookOptions) (this : DiscordWebhook.t)
        (payload : DiscordWebhookPayload) (h : Host) (log : Log) :
  DiscordWebhook.constructor options = Return this ->
  (opt_timeout options = None \/ opt_timeout options = Some 0) ->
  transport h (DiscordWebhook.request_of this payload) 10000 = Aborted ->
  DiscordWebhook._execute this payload h log
  = (Throw (Error "Failed to send webhook: Request timeout after 10000ms"),
     (log ++ [DiscordWebhook.request_of this payload])%list).
Proof.
  intros Hnew Hopt Ho.
  destruct (constructor_cases options) as [[_ Hc]|[_ Hc]]; rewrite Hc in Hnew;
    [|discriminate].
  injection Hnew as <-.
  rewrite execute_outcome.
  assert (Ht : or_default (opt_timeout options) 10000 = 10000)
    by (destruct Hopt as [-> | ->]; reflexivity).
  cbn [DiscordWebhook.timeout]. rewrite Ht.
  cbn [DiscordWebhook.timeout] in Ho. rewrite Ht in Ho. rewrite Ho. reflexivity.
Qed.

Lemma default_timeout_is_armed_and_reported_witness :
  DiscordWebhook._execute client_default (mkPayload (Some "ping") None None None)
                          host_silent []
  = (Throw (Error "Failed to send webhook: Request timeout after 10000ms"),
     [DiscordWebhook.request_of client_default (mkPayload (Some "ping") None None None)]).
Proof.
  apply (default_timeout_is_armed_and_reported
           (mkOptions "https://discord.com/api/webhooks/123/abc" None None (Some 0))
           client_default (mkPayload (Some "ping") None None None) host_silent []).
  - reflexivity.
  - right. reflexivity.
  - reflexivity.
Defined.

(** X8. The [catch] block goes by the name of the error alone: a rejection
    with any [Error] named [AbortError] is reported as a timeout with the
    configured value, and the message of the cause is dropped. *)
Theorem abort_named_rejection_is_reported_as_timeout
        (this : DiscordWebhook.t) (payload : DiscordWebhookPayload) (h : Host) (log : Log)
        (m : string) :
  transport h (DiscordWebhook.request_of this payload) (DiscordWebhook.timeout this)
  = Rejected (ErrorObject "AbortError" m) ->
  DiscordWebhook._execute this payload h log
  = (Throw (Error ("Failed to send webhook: Request timeout after "
                   ++ Number_toString (DiscordWebhook.timeout this) ++ "ms")),
     (log ++ [DiscordWebhook.request_of this payload])%list).
Proof.
  intros Ho. rewrite execute_outcome, Ho. reflexivity.
Qed.

Lemma abort_named_rejection_is_reported_as_timeout_witness :
  DiscordWebhook._execute client_50ms (mkPayload (Some "ping") None None None)
                          host_foreign_abort []
  = (Throw (Error "Failed to send webhook: Request timeout after 50ms"),
     [DiscordWebhook.request_of client_50ms (mkPayload (Some "ping") None None None)]).
Proof.
  apply (abort_named_rejection_is_reported_as_timeout
           client_50ms (mkPayload (Some "ping") None None None) host_foreign_abort []
           "stream destroyed").
  reflexivity.
Defined.

(** ** The send paths *)

Lemma stringify_username_member (p : DiscordWebhookPayload) :
  json_get "username" (JSON_stringify p) = option_map JString (username p).
Proof.
  destruct p as [[c|] [u|] [a|] [es|]]; reflexivity.
Qed.

Lemma stringify_avatar_member (p : DiscordWebhookPayload) :
  json_get "avatar_url" (JSON_stringify p) = option_map JString (avatar_url p).
Proof.
  destruct p as [[c|] [u|] [a|] [es|]]; reflexivity.
Qed.

Lemma log_grows (log : Log) (r : Request) : (log ++ [r])%list <> log.
Proof.
  intros H. apply (f_equal (@length Request)) in H.
  rewrite length_app in H. simpl in H. lia.
Qed.

(** X9. [send] makes exactly one network attempt for every content and
    every optional list of embeds, without validating either: the body has
    the content under ["content"], the empty string included, and the
    embeds under ["embeds"] exactly when a list was passed, as passed, be
    it empty or longer than 10. *)
Theorem send_dispatches_without_validation
        (this : DiscordWebhook.t) (txt : string) (es : option (list DiscordEmbed))
        (h : Host) (log : Log) :
  exists (outcome : Completion unit) (payload : DiscordWebhookPayload),
    DiscordWebhook.send this txt es h log
    = (outcome, (log ++ [DiscordWebhook.request_of this payload])%list)
    /\ content payload = Some txt
    /\ embeds payload = es
    /\ json_get "content" (JSON_stringify payload) = Some (JString txt)
    /\ json_get "embeds" (JSON_stringify payload)
       = option_map (fun l => JArray (map stringify_embed l)) es.
Proof.
  exists (fst (DiscordWebhook.send this txt es h log)).
  exists (mkPayload (Some txt) (DiscordWebhook.username this)
                    (DiscordWebhook.avatarUrl this) es).
  split.
  { unfold DiscordWebhook.send. rewrite <- execute_one_attempt with (h := h).
    now destruct (DiscordWebhook._execute _ _ _ _). }
  split; [reflexivity|]. split; [reflexivity|].
  split; [exact (stringify_content_member _) | exact (stringify_embeds_member _)].
Qed.

(** X10. [sendEmbeds] leaves the request log as it was exactly when the
    sequence is empty or longer than 10; an empty sequence throws "At least
    one embed is required", a longer one "Maximum 10 embeds allowed per
    message". *)
Theorem sendEmbeds_attempt_iff_in_range
        (this : DiscordWebhook.t) (es : list DiscordEmbed) (h : Host) (log : Log) :
  (length es = 0%nat ->
   DiscordWebhook.sendEmbeds this es h log
   = (Throw (Error "At least one embed is required"), log))
  /\ ((10 < length es)%nat ->
      DiscordWebhook.sendEmbeds this es h log
      = (Throw (Error "Maximum 10 embeds allowed per message"), log))
  /\ (snd (DiscordWebhook.sendEmbeds this es h log) = log
      <-> (length es = 0 \/ 10 < length es)%nat).
Proof.
  unfold DiscordWebhook.sendEmbeds.
  destruct (Z.of_nat (length es) =? 0) eqn:H0.
  - apply Z.eqb_eq in H0.
    split; [reflexivity|]. split; [intros; lia|].
    split; [intros _; left; lia | reflexivity].
  - apply Z.eqb_neq in H0.
    destruct (10 <? Z.of_nat (length es)) eqn:H10.
    + apply Z.ltb_lt in H10.
      split; [intros; lia|]. split; [reflexivity|].
      split; [intros _; right; lia | reflexivity].
    + apply Z.ltb_ge in H10.
      split; [intros; lia|]. split; [intros; lia|].
      rewrite execute_one_attempt.
      split; [intros Hlog; now apply log_grows in Hlog | intros; lia].
Qed.

Lemma sendEmbeds_attempt_iff_in_range_witness :
  DiscordWebhook.sendEmbeds client_default [] host_accepting []
  = (Throw (Error "At least one embed is required"), [])
  /\ DiscordWebhook.sendEmbeds client_default (repeat empty_embed 11) host_accepting []
     = (Throw (Error "Maximum 10 embeds allowed per message"), []).
Proof.
  split.
  - apply (proj1 (sendEmbeds_attempt_iff_in_range client_default [] host_accepting [])).
    reflexivity.
  - apply (proj1 (proj2 (sendEmbeds_attempt_iff_in_range
                           client_default (repeat empty_embed 11) host_accepting []))).
    simpl. lia.
Defined.

Lemma payload_carries_identity
      (this : DiscordWebhook.t) (c : option string) (es : option (list DiscordEmbed)) :
  carries_identity this (mkPayload c (DiscordWebhook.username this)
                                   (DiscordWebhook.avatarUrl this) es).
Proof.
  unfold carries_identity.
  split; [reflexivity|]. split; [reflexivity|].
  split; [exact (stringify_username_member _) | exact (stringify_avatar_member _)].
Qed.

(** X11. On every send path the one request carries the identity of the
    client: the payload has the configured user name and avatar, and the
    body has a ["username"] and an ["avatar_url"] key exactly when the
    client was configured with one. *)
Theorem sends_carry_identity (this : DiscordWebhook.t) (h : Host) (log : Log) :
  (forall (txt : string) (es : option (list DiscordEmbed)),
      exists outcome payload,
        DiscordWebhook.send this txt es h log
        = (outcome, (log ++ [DiscordWebhook.request_of this payload])%list)
        /\ carries_identity this payload)
  /\ (forall st ttl desc flds img,
         exists outcome payload,
           DiscordWebhook.sendStatus this st ttl desc flds img h log
           = (outcome, (log ++ [DiscordWebhook.request_of this payload])%list)
           /\ carries_identity this payload)
  /\ (forall es : list DiscordEmbed,
         (1 <= length es <= 10)%nat ->
         exists outcome payload,
           DiscordWebhook.sendEmbeds this es h log
           = (outcome, (log ++ [DiscordWebhook.request_of this payload])%list)
           /\ carries_identity this payload).
Proof.
  split; [|split].
  - intros txt es.
    exists (fst (DiscordWebhook.send this txt es h log)). eexists.
    split; [|apply (payload_carries_identity this (Some txt) es)].
    unfold DiscordWebhook.send. rewrite <- execute_one_attempt with (h := h).
    now destruct (DiscordWebhook._execute _ _ _ _).
  - intros st ttl desc flds img.
    exists (fst (DiscordWebhook.sendStatus this st ttl desc flds img h log)). eexists.
    split; [|apply (payload_carries_identity
                      this None
                      (Some [DiscordWebhook.status_embed st ttl desc flds img (now_iso h)]))].
    rewrite sendStatus_unfold, <- execute_one_attempt with (h := h).
    now destruct (DiscordWebhook._execute _ _ _ _).
  - intros es [Hlo Hhi].
    exists (fst (DiscordWebhook.sendEmbeds this es h log)). eexists.
    split; [|apply (payload_carries_identity this None (Some es))].
    unfold DiscordWebhook.sendEmbeds.
    replace (Z.of_nat (length es) =? 0) with false by (symmetry; apply Z.eqb_neq; lia).
    replace (10 <? Z.of_nat (length es)) with false by (symmetry; apply Z.ltb_ge; lia).
    rewrite <- execute_one_attempt with (h := h).
    now destruct (DiscordWebhook._execute _ _ _ _).
Qed.

Lemma sends_carry_identity_witness :
  exists outcome payload,
    DiscordWebhook.sendEmbeds
      (DiscordWebhook.mk "https://discord.com/api/webhooks/123/abc" (Some "Deploy Bot")
                         None 10000)
      [empty_embed] host_accepting []
    = (outcome,
       [DiscordWebhook.request_of
          (DiscordWebhook.mk "https://discord.com/api/webhooks/123/abc" (Some "Deploy Bot")
                             None 10000)
          payload])
    /\ json_get "username" (JSON_stringify payload) = Some (JString "Deploy Bot")
    /\ json_get "avatar_url" (JSON_stringify payload) = None.
Proof.
  destruct (proj2 (proj2 (sends_carry_identity
                            (DiscordWebhook.mk "https://discord.com/api/webhooks/123/abc"
                                               (Some "Deploy Bot") None 10000)
                            host_accepting []))
                  [empty_embed])
    as (outcome & payload & Hrun & _ & _ & Hu & Ha).
  - simpl. lia.
  - exists outcome, payload. split; [exact Hrun|]. split; [exact Hu | exact Ha].
Defined.

(** ** The free helper functions, continued *)

(** X12. When the endpoint that reaches the constructor begins with the
    webhook prefix, the helper [sendWebhook] is the method [send] of a
    client with that endpoint, the user name and avatar of the options, and
    the timeout of the options, 10000 ms when they have none or 0.  The
    endpoint and the timeout are those of the options object when it has
    them, because the whole object is spread into the constructor options.
    The helper [sendStatus] picks the user name and avatar by name: with an
    endpoint argument that begins with the prefix it is the method
    [sendStatus] of a client with that endpoint and the default timeout.
    Embeds, fields and image are passed on as they are. *)
Theorem helpers_delegate_to_client (webhookUrl : string) (h : Host) (log : Log) :
  (forall (txt : string) (options : option SendWebhookOptions),
      begins_with (match opt_chain swo_webhookUrl options with
                   | Some u => u
                   | None => webhookUrl
                   end)
                  "https://discord.com/api/webhooks/" ->
      sendWebhook webhookUrl txt options h log
      = DiscordWebhook.send
          (DiscordWebhook.mk (match opt_chain swo_webhookUrl options with
                              | Some u => u
                              | None => webhookUrl
                              end)
                             (opt_chain swo_username options)
                             (opt_chain swo_avatarUrl options)
                             (match opt_chain swo_timeout options with
                              | Some t => if t =? 0 then 10000 else t
                              | None => 10000
                              end))
          txt (opt_chain swo_embeds options) h log)
  /\ (forall (st : DiscordStatusColor) (ttl : string) (desc : option string)
             (options : option SendStatusOptions),
         begins_with webhookUrl "https://discord.com/api/webhooks/" ->
         sendStatus webhookUrl st ttl desc options h log
         = DiscordWebhook.sendStatus
             (DiscordWebhook.mk webhookUrl (opt_chain sso_username options)
                                (opt_chain sso_avatarUrl options) 10000)
             st ttl desc (opt_chain sso_fields options) (opt_chain sso_imageUrl options)
             h log).
Proof.
  split.
  - intros txt options Hb. unfold sendWebhook, bind, await.
    destruct (constructor_cases (spread_options webhookUrl options))
      as [[_ Hc]|[Hn _]]; [|contradiction].
    rewrite Hc. reflexivity.
  - intros st ttl desc options Hb. now apply sendStatus_helper_delegates.
Qed.

(** An options object that carries an endpoint and a timeout of its own:
    the client uses both, whatever the endpoint argument. *)
Lemma helpers_delegate_to_client_witness :
  sendWebhook "https://example.com/webhook" "Custom avatar test"
              (Some (mkSendWebhookOptions
                       (Some "Custom Bot") None (Some (repeat empty_embed 11))
                       (Some "https://discord.com/api/webhooks/123/abc") (Some 50)))
              host_accepting []
  = DiscordWebhook.send
      (DiscordWebhook.mk "https://discord.com/api/webhooks/123/abc" (Some "Custom Bot")
                         None 50)
      "Custom avatar test" (Some (repeat empty_embed 11)) host_accepting []
  /\ sendStatus "https://discord.com/api/webhooks/123/abc" success "OK" None
                (Some (mkSendStatusOptions (Some "Deploy Bot") None None None))
                host_accepting []
     = DiscordWebhook.sendStatus
         (DiscordWebhook.mk "https://discord.com/api/webhooks/123/abc" (Some "Deploy Bot")
                            None 10000)
         success "OK" None None None host_accepting [].
Proof.
  split.
  - apply (proj1 (helpers_delegate_to_client
                    "https://example.com/webhook" host_accepting [])
                 "Custom avatar test"
                 (Some (mkSendWebhookOptions
                          (Some "Custom Bot") None (Some (repeat empty_embed 11))
                          (Some "https://discord.com/api/webhooks/123/abc") (Some 50)))).
    exists "123/abc". reflexivity.
  - apply (proj2 (helpers_delegate_to_client
                    "https://discord.com/api/webhooks/123/abc" host_accepting [])
                 success "OK" None
                 (Some (mkSendStatusOptions (Some "Deploy Bot") None None None))).
    exists "123/abc". reflexivity.
Defined.

(** A foreign endpoint argument is rejected by both helpers when the options
    carry no endpoint; an options object with a foreign endpoint makes
    [sendWebhook] reject a valid endpoint argument. *)
Lemma helpers_reject_bad_endpoint_witness :
  sendStatus "https://example.com/webhook" error "Server Down" None None host_accepting []
  = (Throw (Error "Invalid webhook URL. Must be a Discord webhook URL."), [])
  /\ sendWebhook "" "test" None host_accepting []
     = (Throw (Error "Invalid webhook URL. Must be a Discord webhook URL."), [])
  /\ sendWebhook "https://discord.com/api/webhooks/123/abc" "test"
                 (Some (mkSendWebhookOptions None None None
                                             (Some "https://example.com/webhook") None))
                 host_accepting []
     = (Throw (Error "Invalid webhook URL. Must be a Discord webhook URL."), []).
Proof.
  split; [|split].
  - apply (proj1 (helpers_reject_bad_endpoint "https://example.com/webhook"
                                              host_accepting [])).
    intros [r Hr]; discriminate.
  - apply (proj2 (helpers_reject_bad_endpoint "" host_accepting []) "test" None).
    intros [r Hr]; discriminate.
  - apply (proj2 (helpers_reject_bad_endpoint "https://discord.com/api/webhooks/123/abc"
                                              host_accepting [])
                 "test"
                 (Some (mkSendWebhookOptions None None None
                                             (Some "https://example.com/webhook") None))).
    intros [r Hr]; discriminate.
Defined.

(** ** Chains of builder calls *)

(** X14. Two builder calls that assign to different properties of the
    embed commute: either order leaves the builder with the same value for
    every property of the embed (the order of the keys in the serialised
    text is not part of this). *)
Theorem calls_on_different_properties_commute
        (h : Host) (c1 c2 : Call) (b : EmbedBuilder.t) :
  written c1 <> written c2 ->
  call h c2 (call h c1 b) = call h c1 (call h c2 b).
Proof.
  intros Hdiff.
  destruct c1, c2; simpl in Hdiff; try (now contradiction Hdiff); reflexivity.
Qed.

Lemma calls_on_different_properties_commute_witness :
  EmbedBuilder.addField "Branch" "main" (Some true)
                        (EmbedBuilder.setTitle "Build Report" EmbedBuilder.new)
  = EmbedBuilder.setTitle "Build Report"
                          (EmbedBuilder.addField "Branch" "main" (Some true)
                                                 EmbedBuilder.new).
Proof.
  apply (calls_on_different_properties_commute
           host_accepting (SetTitle "Build Report") (AddField "Branch" "main" (Some true))
           EmbedBuilder.new).
  discriminate.
Defined.

(** X15. A setter overwrites: after two calls that assign to the same
    property, the second not being [addField] or [addFields], the builder
    is as if only the second had been made.  [setColor] and
    [setStatusColor] overwrite each other in this way. *)
Theorem last_setter_wins (h : Host) (c1 c2 : Call) (b : EmbedBuilder.t) :
  written c1 = written c2 ->
  written c2 <> PFields ->
  call h c2 (call h c1 b) = call h c2 b.
Proof.
  intros Hsame Hscalar.
  destruct c1, c2; simpl in Hsame, Hscalar;
    try discriminate; try (now contradiction Hscalar); reflexivity.
Qed.

Lemma last_setter_wins_witness :
  EmbedBuilder.setColor 0x00FF00 (EmbedBuilder.setStatusColor error EmbedBuilder.new)
  = EmbedBuilder.setColor 0x00FF00 EmbedBuilder.new.
Proof.
  apply (last_setter_wins host_accepting (SetStatusColor error) (SetColor 0x00FF00)
                          EmbedBuilder.new).
  - reflexivity.
  - discriminate.
Defined.

Lemma call_fields (h : Host) (c : Call) (b : EmbedBuilder.t) :
  EmbedBuilder.fields_or_init (EmbedBuilder.embed (call h c b))
  = (EmbedBuilder.fields_or_init (EmbedBuilder.embed b) ++ pushed c)%list.
Proof.
  destruct c; simpl; try (now rewrite app_nil_r); reflexivity.
Qed.

(** X16. The field list that a chain of calls builds is the list the
    builder started with followed by every field passed to [addField] and
    [addFields], in the order of the calls, however the other setters are
    interleaved: no field is dropped, reordered or limited in number. *)
Theorem chain_collects_fields_in_order
        (h : Host) (cs : list Call) (b : EmbedBuilder.t) :
  EmbedBuilder.fields_or_init (EmbedBuilder.build (chain h cs b))
  = (EmbedBuilder.fields_or_init (EmbedBuilder.build b) ++ flat_map pushed cs)%list.
Proof.
  unfold EmbedBuilder.build, chain. revert b.
  induction cs as [|c cs IH]; intros b; simpl.
  - now rewrite app_nil_r.
  - rewrite IH, call_fields, <- app_assoc. reflexivity.
Qed.

(** X17. Two calls of [addFields] in a row are one call with the two
    sequences joined. *)
Theorem addFields_composes (xs ys : list DiscordEmbedField) (b : EmbedBuilder.t) :
  EmbedBuilder.addFields ys (EmbedBuilder.addFields xs b)
  = EmbedBuilder.addFields (xs ++ ys) b.
Proof.
  unfold EmbedBuilder.addFields. simpl.
  unfold EmbedBuilder.fields_or_init at 1. simpl.
  now rewrite <- app_assoc.
Qed.

(** X18. Calling [addField] once per element of a sequence is one call of
    [addFields] on the elements with their inline flag made explicit
    (missing read as [false]), when the sequence is not empty or the
    builder already has a field list. *)
Theorem repeated_addField_is_addFields_with_defaults
        (fs : list DiscordEmbedField) (b : EmbedBuilder.t) :
  fs <> [] \/ fields (EmbedBuilder.build b) <> None ->
  addField_each fs b = EmbedBuilder.addFields (map with_inline_default fs) b.
Proof.
  revert b. induction fs as [|f fs IH]; intros b Hstart.
  - destruct Hstart as [Hne|Hinit]; [now contradiction Hne|].
    simpl. symmetry. now apply addFields_nil_initialised.
  - change (addField_each (f :: fs) b)
      with (addField_each fs (EmbedBuilder.addField (name f) (value f) (inline f) b)).
    rewrite IH by (right; discriminate).
    change (EmbedBuilder.addField (name f) (value f) (inline f) b)
      with (EmbedBuilder.addFields [with_inline_default f] b).
    rewrite addFields_composes. reflexivity.
Qed.

Lemma repeated_addField_is_addFields_with_defaults_witness :
  addField_each [mkField "a" "1" None; mkField "b" "2" (Some true)] EmbedBuilder.new
  = EmbedBuilder.addFields [mkField "a" "1" (Some false); mkField "b" "2" (Some true)]
                           EmbedBuilder.new.
Proof.
  apply (repeated_addField_is_addFields_with_defaults
           [mkField "a" "1" None; mkField "b" "2" (Some true)] EmbedBuilder.new).
  left. discriminate.
Defined.

(** ** sendStatus through the builder *)

Lemma status_embed_by_builder
      (st : DiscordStatusColor) (ttl : string) (desc : option string)
      (flds : option (list DiscordEmbedField)) (img : option string) (h : Host) :
  EmbedBuilder.build (chain h (status_calls st ttl desc flds img) EmbedBuilder.new)
  = DiscordWebhook.status_embed st ttl desc flds img (now_iso h).
Proof.
  destruct desc as [[|a d]|]; destruct flds as [[|f fs]|]; destruct img as [[|c u]|];
    reflexivity.
Qed.

(** X19. [sendStatus] is [sendEmbeds] of the one embed that a new builder
    builds with [setTitle], [setStatusColor] and [setTimestamp], followed
    by [setDescription], [addFields] and [setImage] for the arguments that
    are given and not empty: the two make the same request and end the
    same way. *)
Theorem sendStatus_is_sendEmbeds_of_built_embed
        (this : DiscordWebhook.t) (st : DiscordStatusColor) (ttl : string)
        (desc : option string) (flds : option (list DiscordEmbedField))
        (img : option string) (h : Host) (log : Log) :
  DiscordWebhook.sendStatus this st ttl desc flds img h log
  = DiscordWebhook.sendEmbeds
      this
      [EmbedBuilder.build (chain h (status_calls st ttl desc flds img)
                                 (createEmbed this))]
      h log.
Proof.
  unfold createEmbed. rewrite status_embed_by_builder, sendStatus_unfold. reflexivity.
Qed.
